(** * cgra-webgl01: the WebGL start-up and render sequence of [src/main.ts]

    The program talks to a host (the DOM, the console, a WebGL context and
    the animation-frame scheduler).  Every host call is a command [Cmd R]
    with result type [R]; the host itself is an arbitrary deterministic
    state machine that answers commands.  The functions of [main.ts] are
    written in a small monad that threads the host state, records every
    call together with its answer, and keeps the list of pending
    animation-frame callbacks. *)

From Stdlib Require Import List String Ascii ZArith QArith Bool Lia.
From Stdlib Require Import DecimalString.
Import ListNotations.

Local Open Scope string_scope.
Local Open Scope Z_scope.

(** ** Host objects *)

Inductive HTMLCanvasElement : Type := Canvas (id : nat).
Inductive WebGLRenderingContext : Type := Context (id : nat).
Inductive WebGLShader : Type := Shader (id : nat).
Inductive WebGLProgram : Type := Program (id : nat).
Inductive WebGLBuffer : Type := Buffer (id : nat).

Definition WebGLShader_eqb (a b : WebGLShader) : bool :=
  match a, b with Shader x, Shader y => Nat.eqb x y end.

Definition WebGLProgram_eqb (a b : WebGLProgram) : bool :=
  match a, b with Program x, Program y => Nat.eqb x y end.

(** [type ShaderType = gl["VERTEX_SHADER"] | gl["FRAGMENT_SHADER"]] *)
Inductive ShaderType : Type := VERTEX_SHADER | FRAGMENT_SHADER.

(** The [GLenum] constants the program reads off the context. *)
Module GLenum.
Definition COMPILE_STATUS : Z := 0x8B81.
Definition LINK_STATUS : Z := 0x8B82.
Definition ARRAY_BUFFER : Z := 0x8892.
Definition STATIC_DRAW : Z := 0x88E4.
Definition FLOAT : Z := 0x1406.
Definition UNSIGNED_BYTE : Z := 0x1401.
Definition TRIANGLES : Z := 0x0004.
Definition COLOR_BUFFER_BIT : Z := 0x4000.
Definition DEPTH_BUFFER_BIT : Z := 0x0100.
Definition of_ShaderType (t : ShaderType) : Z :=
  match t with VERTEX_SHADER => 0x8B31 | FRAGMENT_SHADER => 0x8B30 end.
End GLenum.

(** Typed arrays handed to [bufferData]. *)
Inductive TypedArray : Type :=
| Float32Array (elems : list Q)
| Uint8Array (elems : list Z).

(** [new Uint8Array(numbers)] stores every number modulo 256. *)
Definition new_Uint8Array (numbers : list Z) : TypedArray :=
  Uint8Array (map (fun n => n mod 256) numbers).

Definition typed_length (a : TypedArray) : nat :=
  match a with
  | Float32Array l => List.length l
  | Uint8Array l => List.length l
  end.

(** The closure returned by [render(gl, program)]: it captures its two
    parameters and, from the scope of [main], the two buffer handles (the
    arrays [pos] and [colors] are constants).  The captured [time] is never
    read. *)
Inductive FrameRequestCallback : Type :=
| RenderClosure (gl : WebGLRenderingContext) (program : WebGLProgram)
                (posBuffer colBuffer : option WebGLBuffer).

(** ** Host commands *)

Inductive Cmd : Type -> Type :=
(* DOM, console, window *)
| QuerySelector (selector : string) : Cmd (option HTMLCanvasElement)
| GetContext (canvas : HTMLCanvasElement) (contextId : string)
  : Cmd (option WebGLRenderingContext)
| ConsoleError (message : string) : Cmd unit
| ConsoleLog (message : string) : Cmd unit
| DevicePixelRatio : Cmd Q
| ResizeCanvasToDisplaySize (canvas : HTMLCanvasElement) (multiplier : Q)
  : Cmd bool
| CanvasWidth (canvas : HTMLCanvasElement) : Cmd Z
| CanvasHeight (canvas : HTMLCanvasElement) : Cmd Z
| RequestAnimationFrame (callback : FrameRequestCallback) : Cmd Z
(* shaders *)
| GlCreateShader (gl : WebGLRenderingContext) (type : ShaderType)
  : Cmd (option WebGLShader)
| GlShaderSource (gl : WebGLRenderingContext) (shader : WebGLShader)
                 (source : string) : Cmd unit
| GlCompileShader (gl : WebGLRenderingContext) (shader : WebGLShader)
  : Cmd unit
| GlGetShaderParameter (gl : WebGLRenderingContext) (shader : WebGLShader)
                       (pname : Z) : Cmd (option bool)
| GlGetShaderInfoLog (gl : WebGLRenderingContext) (shader : WebGLShader)
  : Cmd (option string)
| GlDeleteShader (gl : WebGLRenderingContext) (shader : WebGLShader)
  : Cmd unit
(* programs *)
| GlCreateProgram (gl : WebGLRenderingContext) : Cmd (option WebGLProgram)
| GlAttachShader (gl : WebGLRenderingContext) (program : WebGLProgram)
                 (shader : WebGLShader) : Cmd unit
| GlLinkProgram (gl : WebGLRenderingContext) (program : WebGLProgram)
  : Cmd unit
| GlGetProgramParameter (gl : WebGLRenderingContext) (program : WebGLProgram)
                        (pname : Z) : Cmd (option bool)
| GlGetProgramInfoLog (gl : WebGLRenderingContext) (program : WebGLProgram)
  : Cmd (option string)
| GlDeleteProgram (gl : WebGLRenderingContext) (program : WebGLProgram)
  : Cmd unit
| GlUseProgram (gl : WebGLRenderingContext) (program : WebGLProgram)
  : Cmd unit
(* buffers, attributes, drawing *)
| GlCreateBuffer (gl : WebGLRenderingContext) : Cmd (option WebGLBuffer)
| GlViewport (gl : WebGLRenderingContext) (x y width height : Z) : Cmd unit
| GlClearColor (gl : WebGLRenderingContext) (red green blue alpha : Q)
  : Cmd unit
| GlClear (gl : WebGLRenderingContext) (mask : Z) : Cmd unit
| GlGetAttribLocation (gl : WebGLRenderingContext) (program : WebGLProgram)
                      (name : string) : Cmd Z
| GlEnableVertexAttribArray (gl : WebGLRenderingContext) (index : Z)
  : Cmd unit
| GlBindBuffer (gl : WebGLRenderingContext) (target : Z)
               (buffer : option WebGLBuffer) : Cmd unit
| GlBufferData (gl : WebGLRenderingContext) (target : Z) (data : TypedArray)
               (usage : Z) : Cmd unit
| GlVertexAttribPointer (gl : WebGLRenderingContext) (index size type : Z)
                        (normalized : bool) (stride offset : Z) : Cmd unit
| GlDrawArrays (gl : WebGLRenderingContext) (mode first count : Z)
  : Cmd unit.

(** One entry of the call log: a command and the host's answer. *)
Inductive Event : Type :=
| Ev {R : Type} (c : Cmd R) (r : R).

(** ** JavaScript conversions used by the program *)

(** [!x] on a status value: [null] and [false] are falsy. *)
Definition truthy (v : option bool) : bool :=
  match v with Some true => true | _ => false end.

(** [${x}] inside a template literal, for [x : string | null]. *)
Definition template_of (x : option string) : string :=
  match x with Some s => s | None => "null" end.

(** [${n}] for an integer. *)
Definition template_of_int (n : Z) : string :=
  NilZero.string_of_int (Z.to_int n).

Definition nl : string := String "010"%char EmptyString.

(** ** Messages of [main.ts], with their line breaks and indentation *)

Definition msg_shader (log : option string) : string :=
  "Could not compile WebGL shader." ++ nl ++
  nl ++
  "      " ++ template_of log ++ nl ++
  "      ".

Definition msg_program (log : option string) : string :=
  "Could not compile WebGL program." ++ nl ++
  "    " ++ nl ++
  "      " ++ template_of log ++ nl ++
  "      ".

Definition msg_no_canvas : string :=
  "Unable to get the canvas element. Either your HTML broke or the dev being stupid." ++ nl ++
  "      Report this to the dev ASAP." ++ nl ++
  "      ".

Definition msg_no_webgl : string :=
  "Unable to load WebGL context from canvas. Perhaps your browser doesn't support it. Stopping." ++ nl ++
  "      ".

Definition msg_shaders_stop : string := "Unable to compile shaders. Stopping.".

Definition msg_program_stop : string := "Unable to create WebGLProgram. Stopping.".

Definition msg_resized (resized : bool) (width height : Z) : string :=
  "Canvas " ++ (if resized then "was" else "already") ++ " resized to " ++
  template_of_int width ++ "x" ++ template_of_int height ++ ".".

(** ** Observations on the call log *)

Definition is_error (e : Event) : bool :=
  match e with Ev (ConsoleError _) _ => true | _ => false end.

Definition is_shader_work (e : Event) : bool :=
  match e with
  | Ev (GlCreateShader _ _) _ | Ev (GlShaderSource _ _ _) _
  | Ev (GlCompileShader _ _) _ | Ev (GlGetShaderParameter _ _ _) _
  | Ev (GlGetShaderInfoLog _ _) _ | Ev (GlDeleteShader _ _) _ => true
  | _ => false
  end.

Definition is_program_work (e : Event) : bool :=
  match e with
  | Ev (GlCreateProgram _) _ | Ev (GlAttachShader _ _ _) _
  | Ev (GlLinkProgram _ _) _ | Ev (GlGetProgramParameter _ _ _) _
  | Ev (GlGetProgramInfoLog _ _) _ | Ev (GlDeleteProgram _ _) _
  | Ev (GlUseProgram _ _) _ => true
  | _ => false
  end.

Definition is_create_program (e : Event) : bool :=
  match e with Ev (GlCreateProgram _) _ => true | _ => false end.

Definition is_buffer_work (e : Event) : bool :=
  match e with
  | Ev (GlCreateBuffer _) _ | Ev (GlBindBuffer _ _ _) _
  | Ev (GlBufferData _ _ _ _) _ => true
  | _ => false
  end.

Definition is_upload (e : Event) : bool :=
  match e with Ev (GlBufferData _ _ _ _) _ => true | _ => false end.

Definition is_draw (e : Event) : bool :=
  match e with Ev (GlDrawArrays _ _ _ _) _ => true | _ => false end.

Definition is_clear (e : Event) : bool :=
  match e with
  | Ev (GlClearColor _ _ _ _ _) _ | Ev (GlClear _ _) _ => true
  | _ => false
  end.

Definition is_schedule (e : Event) : bool :=
  match e with Ev (RequestAnimationFrame _) _ => true | _ => false end.

(** A status query that came back falsy. *)
Definition compile_status_failed (e : Event) : bool :=
  match e with
  | @Ev R c r =>
      match c in Cmd R0 return R0 -> bool with
      | GlGetShaderParameter _ _ pname =>
          fun r => Z.eqb pname GLenum.COMPILE_STATUS && negb (truthy r)
      | _ => fun _ => false
      end r
  end.

Definition link_status_failed (e : Event) : bool :=
  match e with
  | @Ev R c r =>
      match c in Cmd R0 return R0 -> bool with
      | GlGetProgramParameter _ _ pname =>
          fun r => Z.eqb pname GLenum.LINK_STATUS && negb (truthy r)
      | _ => fun _ => false
      end r
  end.

(** Shader handles that the log shows allocated and not yet deleted. *)
Definition track_shader (live : list WebGLShader) (e : Event)
  : list WebGLShader :=
  match e with
  | @Ev R c r =>
      match c in Cmd R0 return R0 -> list WebGLShader with
      | GlCreateShader _ _ =>
          fun r => match r with Some sh => (live ++ [sh])%list | None => live end
      | GlDeleteShader _ sh =>
          fun _ => filter (fun x => negb (WebGLShader_eqb x sh)) live
      | _ => fun _ => live
      end r
  end.

Definition live_shaders (log : list Event) : list WebGLShader :=
  fold_left track_shader log [].

Definition track_program (live : list WebGLProgram) (e : Event)
  : list WebGLProgram :=
  match e with
  | @Ev R c r =>
      match c in Cmd R0 return R0 -> list WebGLProgram with
      | GlCreateProgram _ =>
          fun r => match r with Some p => (live ++ [p])%list | None => live end
      | GlDeleteProgram _ p =>
          fun _ => filter (fun x => negb (WebGLProgram_eqb x p)) live
      | _ => fun _ => live
      end r
  end.

Definition live_programs (log : list Event) : list WebGLProgram :=
  fold_left track_program log [].

Definition is_use_program (e : Event) : bool :=
  match e with Ev (GlUseProgram _ _) _ => true | _ => false end.

(** An allocation the host refused. *)
Definition buffer_alloc_failed (e : Event) : bool :=
  match e with
  | @Ev R c r =>
      match c in Cmd R0 return R0 -> bool with
      | GlCreateBuffer _ =>
          fun r => match r with None => true | Some _ => false end
      | _ => fun _ => false
      end r
  end.

Definition handle_alloc_failed (e : Event) : bool :=
  match e with
  | @Ev R c r =>
      match c in Cmd R0 return R0 -> bool with
      | GlCreateShader _ _ =>
          fun r => match r with None => true | Some _ => false end
      | GlCreateProgram _ =>
          fun r => match r with None => true | Some _ => false end
      | _ => fun _ => false
      end r
  end.

(** The length of the array an upload carries. *)
Definition uploaded_length (e : Event) : nat :=
  match e with
  | Ev (GlBufferData _ _ data _) _ => typed_length data
  | _ => O
  end.

(** The vertex-array state the calls logged so far have asked for: the
    [ARRAY_BUFFER] binding, which attribute arrays are enabled, and how each
    attribute is described ([vertexAttribPointer] records the buffer bound
    at the time of the call). *)
Record AttribPointer : Type := mkPointer {
  ap_buffer : option WebGLBuffer;
  ap_size : Z;
  ap_type : Z;
  ap_normalized : bool;
  ap_stride : Z;
  ap_offset : Z
}.

Record VertexArrays : Type := mkArrays {
  array_buffer : option WebGLBuffer;
  enabled : Z -> bool;
  pointer : Z -> option AttribPointer
}.

Definition no_arrays : VertexArrays :=
  mkArrays None (fun _ => false) (fun _ => None).

Definition track_arrays (a : VertexArrays) (e : Event) : VertexArrays :=
  match e with
  | Ev (GlBindBuffer _ target buffer) _ =>
      if Z.eqb target GLenum.ARRAY_BUFFER
      then mkArrays buffer (enabled a) (pointer a)
      else a
  | Ev (GlEnableVertexAttribArray _ index) _ =>
      mkArrays (array_buffer a)
               (fun i => if Z.eqb i index then true else enabled a i)
               (pointer a)
  | Ev (GlVertexAttribPointer _ index size type normalized stride offset) _ =>
      mkArrays (array_buffer a) (enabled a)
               (fun i =>
                  if Z.eqb i index
                  then Some (mkPointer (array_buffer a) size type normalized
                                       stride offset)
                  else pointer a i)
  | _ => a
  end.

Definition vertex_arrays (log : list Event) : VertexArrays :=
  fold_left track_arrays log no_arrays.

(** ** The program *)

(** What [main.ts] imports: the coordinate helper of [./utils] (composed
    with the rounding of the store into the [Float32Array]) and the two
    shader texts [./main.vert] and [./main.frag]. *)
Class Imports : Type := {
  scaleToBottomLeft : Q -> Q;
  vertProgram : string;
  fragProgram : string
}.

(** The host: any state machine that answers every command. *)
Class Host : Type := {
  HostState : Type;
  host_answer : forall R : Type, Cmd R -> HostState -> R * HostState
}.

Section Main.

Context {imports : Imports} {the_host : Host}.

(** What the program can change: the host, and the list of callbacks
    waiting for the next display refresh. *)
Record State : Type := mkState {
  host : HostState;
  pending : list FrameRequestCallback
}.

Record Outcome (A : Type) : Type := mkOutcome {
  value : A;
  events : list Event;
  final : State
}.
Arguments mkOutcome {A} _ _ _.
Arguments value {A} _.
Arguments events {A} _.
Arguments final {A} _.

Definition M (A : Type) : Type := State -> Outcome A.

Definition ret {A : Type} (a : A) : M A :=
  fun s => mkOutcome a [] s.

Definition bind {A B : Type} (m : M A) (k : A -> M B) : M B :=
  fun s =>
    let r1 := m s in
    let r2 := k (value r1) (final r1) in
    mkOutcome (value r2) (events r1 ++ events r2)%list (final r2).

Notation "x <- m ;; k" := (bind m (fun x => k))
  (at level 100, m at next level, right associativity).
Notation "m ;; k" := (bind m (fun _ => k))
  (at level 100, right associativity).

(** [requestAnimationFrame(cb)] appends [cb] to the pending callbacks;
    no other command touches them. *)
Definition enqueue {R : Type} (c : Cmd R) (q : list FrameRequestCallback)
  : list FrameRequestCallback :=
  match c with
  | RequestAnimationFrame cb => (q ++ [cb])%list
  | _ => q
  end.

(** Issue one command: the host answers, the call is logged. *)
Definition call {R : Type} (c : Cmd R) : M R :=
  fun s =>
    let a := host_answer R c (host s) in
    mkOutcome (fst a) [Ev c (fst a)] (mkState (snd a) (enqueue c (pending s))).

(** *** [createShader] (lines 8-27) *)
Definition createShader (gl : WebGLRenderingContext) (type : ShaderType)
           (source : string) : M (option WebGLShader) :=
  shader <- call (GlCreateShader gl type) ;;
  match shader with
  | None => ret None
  | Some shader =>
      call (GlShaderSource gl shader source) ;;
      call (GlCompileShader gl shader) ;;
      status <- call (GlGetShaderParameter gl shader GLenum.COMPILE_STATUS) ;;
      if negb (truthy status) then
        log <- call (GlGetShaderInfoLog gl shader) ;;
        call (ConsoleError (msg_shader log)) ;;
        call (GlDeleteShader gl shader) ;;
        ret None
      else ret (Some shader)
  end.

(** *** [createProgram] (lines 29-48) *)
Definition createProgram (gl : WebGLRenderingContext)
           (vertShader fragShader : WebGLShader) : M (option WebGLProgram) :=
  program <- call (GlCreateProgram gl) ;;
  match program with
  | None => ret None
  | Some program =>
      call (GlAttachShader gl program vertShader) ;;
      call (GlAttachShader gl program fragShader) ;;
      call (GlLinkProgram gl program) ;;
      status <- call (GlGetProgramParameter gl program GLenum.LINK_STATUS) ;;
      if negb (truthy status) then
        log <- call (GlGetProgramInfoLog gl program) ;;
        call (ConsoleError (msg_program log)) ;;
        call (GlDeleteProgram gl program) ;;
        ret None
      else ret (Some program)
  end.

(** *** The vertex data of [main] (lines 90-130) *)
Definition pos : list Q :=
  map scaleToBottomLeft
    [ 4 / 8; 4 / 8;
      1 / 8; 4 / 8;
      4 / 8; 1 / 8;

      4 / 8; 7 / 8;
      4 / 8; 4 / 8;
      7 / 8; 4 / 8;

      4 / 8; 4 / 8;
      7 / 8; 4 / 8;
      4 / 8; 1 / 8 ]%Q.

Definition stellaColors : list Z :=
  [ 196; 92; 255; 255;
    115; 92; 255; 255;
    92; 151; 255; 255 ].

Definition revalxColors : list Z :=
  [ 247; 135; 2; 255;
    236; 247; 2; 255;
    247; 13; 2; 255 ].

Definition neoColors : list Z :=
  [ 36; 247; 150; 255;
    36; 238; 247; 255;
    36; 133; 247; 255 ].

Definition colors : TypedArray :=
  new_Uint8Array ((stellaColors ++ revalxColors) ++ neoColors)%list.

Definition colors_elems : list Z :=
  match colors with Uint8Array l => l | Float32Array _ => [] end.

(** *** The function returned by [render(gl, program)] (lines 146-164) *)
Definition render (gl : WebGLRenderingContext) (program : WebGLProgram)
           (posBuffer colBuffer : option WebGLBuffer) : M unit :=
  call (GlClearColor gl 1 1 1 1) ;;
  call (GlClear gl (Z.lor GLenum.COLOR_BUFFER_BIT GLenum.DEPTH_BUFFER_BIT)) ;;
  (* set positions *)
  attrPosPtr <- call (GlGetAttribLocation gl program "a_Pos") ;;
  call (GlEnableVertexAttribArray gl attrPosPtr) ;;
  call (GlBindBuffer gl GLenum.ARRAY_BUFFER posBuffer) ;;
  call (GlBufferData gl GLenum.ARRAY_BUFFER (Float32Array pos) GLenum.STATIC_DRAW) ;;
  call (GlVertexAttribPointer gl attrPosPtr 2 GLenum.FLOAT false 0 0) ;;
  (* set colors *)
  attrColPtr <- call (GlGetAttribLocation gl program "a_Col") ;;
  call (GlEnableVertexAttribArray gl attrColPtr) ;;
  call (GlBindBuffer gl GLenum.ARRAY_BUFFER colBuffer) ;;
  call (GlBufferData gl GLenum.ARRAY_BUFFER colors GLenum.STATIC_DRAW) ;;
  call (GlVertexAttribPointer gl attrColPtr 4 GLenum.UNSIGNED_BYTE true 0 0) ;;
  call (GlDrawArrays gl GLenum.TRIANGLES 0 (Z.of_nat (List.length pos) / 2)).

(** Invoking a registered callback. *)
Definition invoke (cb : FrameRequestCallback) : M unit :=
  match cb with
  | RenderClosure gl program posBuffer colBuffer =>
      render gl program posBuffer colBuffer
  end.

(** *** [main] (lines 50-171) *)
Definition main : M unit :=
  canvas <- call (QuerySelector "#canvas") ;;
  match canvas with
  | None => call (ConsoleError msg_no_canvas)
  | Some canvas =>
  gl <- call (GetContext canvas "webgl") ;;
  match gl with
  | None => call (ConsoleError msg_no_webgl)
  | Some gl =>
  vertexShader <- createShader gl VERTEX_SHADER vertProgram ;;
  fragmentShader <- createShader gl FRAGMENT_SHADER fragProgram ;;
  match vertexShader, fragmentShader with
  | Some vertexShader, Some fragmentShader =>
  program <- createProgram gl vertexShader fragmentShader ;;
  match program with
  | None => call (ConsoleError msg_program_stop)
  | Some program =>
  call (GlUseProgram gl program) ;;
  (* the non-null assertions [!!] leave no trace at run time *)
  posBuffer <- call (GlCreateBuffer gl) ;;
  colBuffer <- call (GlCreateBuffer gl) ;;
  dpr <- call DevicePixelRatio ;;
  resized <- call (ResizeCanvasToDisplaySize canvas dpr) ;;
  w <- call (CanvasWidth canvas) ;;
  h <- call (CanvasHeight canvas) ;;
  call (ConsoleLog (msg_resized resized w h)) ;;
  w' <- call (CanvasWidth canvas) ;;
  h' <- call (CanvasHeight canvas) ;;
  call (GlViewport gl 0 0 w' h') ;;
  call (RequestAnimationFrame (RenderClosure gl program posBuffer colBuffer)) ;;
  call (ConsoleLog "done")
  end
  | _, _ => call (ConsoleError msg_shaders_stop)
  end
  end
  end.

(** *** The host's side of the animation-frame contract

    At a display refresh the host takes the pending callbacks, empties the
    list, and invokes them in order; whatever they register waits for the
    refresh after that. *)
Fixpoint invoke_all (cbs : list FrameRequestCallback) : M unit :=
  match cbs with
  | [] => ret tt
  | cb :: rest => invoke cb ;; invoke_all rest
  end.

Definition refresh : M unit :=
  fun s => invoke_all (pending s) (mkState (host s) []).

Fixpoint refreshes (n : nat) : M unit :=
  match n with
  | O => ret tt
  | S n' => refresh ;; refreshes n'
  end.

(** A page load: nothing is pending, [main()] runs (line 173). *)
Definition page_load (h : HostState) : Outcome unit :=
  main (mkState h []).

(** The first two steps of [main], as an observation: the canvas and the
    context the host hands out, and the state in which shader work would
    start; [None] when either is refused. *)
Definition context_of (s : State)
  : option (HTMLCanvasElement * WebGLRenderingContext * State) :=
  let q := call (QuerySelector "#canvas") s in
  match value q with
  | None => None
  | Some canvas =>
      let g := call (GetContext canvas "webgl") (final q) in
      match value g with
      | None => None
      | Some gl => Some (canvas, gl, final g)
      end
  end.

End Main.

Arguments mkOutcome {the_host A} _ _ _.
Arguments value {the_host A} _.
Arguments events {the_host A} _.
Arguments final {the_host A} _.

(** ** Scripted hosts

    A host that follows a script saying which start-up steps succeed.  Its
    state is a clock counting the calls answered so far. *)

Record Script : Type := mkScript {
  has_canvas : bool;
  has_webgl : bool;
  vertex_compiles : bool;
  fragment_compiles : bool;
  program_links : bool;
  buffers_allocate : bool
}.

Definition scripted_answer (sc : Script) (R : Type) (c : Cmd R) (clock : nat)
  : R * nat :=
  (match c in Cmd R0 return R0 with
   | QuerySelector _ => if has_canvas sc then Some (Canvas 0) else None
   | GetContext _ _ => if has_webgl sc then Some (Context 0) else None
   | DevicePixelRatio => 2%Q
   | ResizeCanvasToDisplaySize _ _ => true
   | CanvasWidth _ => 640
   | CanvasHeight _ => 480
   | RequestAnimationFrame _ => Z.of_nat clock
   | GlCreateShader _ VERTEX_SHADER => Some (Shader 1)
   | GlCreateShader _ FRAGMENT_SHADER => Some (Shader 2)
   | GlGetShaderParameter _ (Shader 1) _ => Some (vertex_compiles sc)
   | GlGetShaderParameter _ (Shader _) _ => Some (fragment_compiles sc)
   | GlGetShaderInfoLog _ _ => Some "ERROR: 0:1: syntax error"
   | GlCreateProgram _ => Some (Program 1)
   | GlGetProgramParameter _ _ _ => Some (program_links sc)
   | GlGetProgramInfoLog _ _ => Some "ERROR: varying mismatch"
   | GlCreateBuffer _ =>
       if buffers_allocate sc then Some (Buffer clock) else None
   | GlGetAttribLocation _ _ name => if String.eqb name "a_Pos" then 0 else 1
   | _ => tt
   end, S clock).

Definition scripted_host (sc : Script) : Host :=
  {| HostState := nat; host_answer := scripted_answer sc |}.

Definition script_ok : Script := mkScript true true true true true true.
Definition script_no_canvas : Script := mkScript false true true true true true.
Definition script_bad_vertex : Script := mkScript true true false true true true.
Definition script_bad_fragment : Script := mkScript true true true false true true.
Definition script_bad_link : Script := mkScript true true true true false true.
Definition script_no_buffers : Script := mkScript true true true true true false.

(** Stand-ins for the imported files, for running the program. *)
Definition sample_imports : Imports :=
  {| scaleToBottomLeft := fun x => (2 * x - 1)%Q;
     vertProgram := "attribute vec2 a_Pos; attribute vec4 a_Col; varying vec4 v_Col; void main() { gl_Position = vec4(a_Pos, 0, 1); v_Col = a_Col; }";
     fragProgram := "precision mediump float; varying vec4 v_Col; void main() { gl_FragColor = v_Col; }" |}.

(** A run of the page under a script: [main()], then [n] display refreshes. *)
Definition session (sc : Script) (n : nat) : list Event * list FrameRequestCallback :=
  let load := @page_load sample_imports (scripted_host sc) O in
  let after := @refreshes sample_imports (scripted_host sc) n (final load) in
  ((events load ++ events after)%list, pending (final after)).

Definition ok_host : Host := scripted_host script_ok.
Definition bad_vertex_host : Host := scripted_host script_bad_vertex.
Definition bad_link_host : Host := scripted_host script_bad_link.

(** The state of a page that has just been opened. *)
Definition fresh_page (sc : Script) : @State (scripted_host sc) :=
  @mkState (scripted_host sc) O [].

Definition ok_page : @Outcome ok_host unit :=
  @page_load sample_imports ok_host O.

(** ** Further observations on the call log *)

Definition is_none {A : Type} (o : option A) : bool :=
  match o with None => true | Some _ => false end.

(** How many entries of a log are of a given kind. *)
Definition count (kind : Event -> bool) (log : list Event) : nat :=
  List.length (filter kind log).

Definition is_console (e : Event) : bool :=
  match e with
  | Ev (ConsoleError _) _ | Ev (ConsoleLog _) _ => true
  | _ => false
  end.

Definition is_create_shader (e : Event) : bool :=
  match e with Ev (GlCreateShader _ _) _ => true | _ => false end.

Definition is_delete_shader (e : Event) : bool :=
  match e with Ev (GlDeleteShader _ _) _ => true | _ => false end.

Definition is_delete_program (e : Event) : bool :=
  match e with Ev (GlDeleteProgram _ _) _ => true | _ => false end.

Definition is_create_buffer (e : Event) : bool :=
  match e with Ev (GlCreateBuffer _) _ => true | _ => false end.

Definition is_bind (e : Event) : bool :=
  match e with Ev (GlBindBuffer _ _ _) _ => true | _ => false end.

Definition is_viewport (e : Event) : bool :=
  match e with Ev (GlViewport _ _ _ _ _) _ => true | _ => false end.

Definition is_attribute_work (e : Event) : bool :=
  match e with
  | Ev (GlGetAttribLocation _ _ _) _ | Ev (GlEnableVertexAttribArray _ _) _
  | Ev (GlVertexAttribPointer _ _ _ _ _ _ _) _ => true
  | _ => false
  end.

(** [getAttribLocation] answered a negative location: the program has no
    such active attribute. *)
Definition attrib_missing (e : Event) : bool :=
  match e with
  | @Ev R c r =>
      match c in Cmd R0 return R0 -> bool with
      | GlGetAttribLocation _ _ _ => fun r => Z.ltb r 0
      | _ => fun _ => false
      end r
  end.

(** The four messages with which [main] gives up. *)
Definition stop_messages : list string :=
  [msg_no_canvas; msg_no_webgl; msg_shaders_stop; msg_program_stop].

(** ** Two more hosts

    Both answer like the all-success scripted host, except that the first
    refuses every shader and program handle and the second reports every
    attribute as missing. *)

Definition refusing_answer (R : Type) (c : Cmd R) (clock : nat) : R * nat :=
  match c in Cmd R0 return R0 * nat -> R0 * nat with
  | GlCreateShader _ _ => fun _ => (None, S clock)
  | GlCreateProgram _ => fun _ => (None, S clock)
  | _ => fun usual => usual
  end (scripted_answer script_ok R c clock).

Definition refusing_host : Host :=
  {| HostState := nat; host_answer := refusing_answer |}.

Definition no_attribs_answer (R : Type) (c : Cmd R) (clock : nat) : R * nat :=
  match c in Cmd R0 return R0 * nat -> R0 * nat with
  | GlGetAttribLocation _ _ _ => fun _ => (-1, S clock)
  | _ => fun usual => usual
  end (scripted_answer script_ok R c clock).

Definition no_attribs_host : Host :=
  {| HostState := nat; host_answer := no_attribs_answer |}.

Definition bad_fragment_host : Host := scripted_host script_bad_fragment.

(** * Properties *)

Section Properties.

Context {imports : Imports} {the_host : Host}.

(** ** Running the monad one call at a time *)

Lemma outcome_eta {A : Type} (r : Outcome A) :
  mkOutcome (value r) (events r) (final r) = r.
Proof. destruct r; reflexivity. Qed.

Lemma run_ret {A : Type} (a : A) (s : State) : ret a s = mkOutcome a [] s.
Proof. reflexivity. Qed.

Lemma run_bind {A B : Type} (m : M A) (k : A -> M B) (s : State) :
  bind m k s =
  mkOutcome (value (k (value (m s)) (final (m s))))
            (events (m s) ++ events (k (value (m s)) (final (m s))))%list
            (final (k (value (m s)) (final (m s)))).
Proof. reflexivity. Qed.

Lemma run_call {R : Type} (c : Cmd R) (s : State) :
  call c s =
  mkOutcome (fst (host_answer R c (host s)))
            [Ev c (fst (host_answer R c (host s)))]
            (mkState (snd (host_answer R c (host s)))
                     (enqueue c (pending s))).
Proof. reflexivity. Qed.

Lemma run_bind_ret {A B : Type} (a : A) (k : A -> M B) (s : State) :
  bind (ret a) k s = k a s.
Proof. unfold bind, ret; cbn. apply outcome_eta. Qed.

Lemma run_bind_assoc {A B C : Type}
      (m : M A) (k1 : A -> M B) (k2 : B -> M C) (s : State) :
  bind (bind m k1) k2 s = bind m (fun x => bind (k1 x) k2) s.
Proof. unfold bind; cbn. now rewrite app_assoc. Qed.

Lemma run_bind_call {R B : Type} (c : Cmd R) (k : R -> M B) (s : State) :
  bind (call c) k s =
  mkOutcome
    (value (k (fst (host_answer R c (host s)))
              (mkState (snd (host_answer R c (host s)))
                       (enqueue c (pending s)))))
    (Ev c (fst (host_answer R c (host s))) ::
     events (k (fst (host_answer R c (host s)))
               (mkState (snd (host_answer R c (host s)))
                        (enqueue c (pending s)))))
    (final (k (fst (host_answer R c (host s)))
              (mkState (snd (host_answer R c (host s)))
                       (enqueue c (pending s))))).
Proof. reflexivity. Qed.

(** Name the host's answer to the next call and split it by cases where
    the program branches on it. *)
Ltac answer :=
  match goal with
  | |- context [host_answer ?R ?c ?h] =>
      is_var h;
      let r := fresh "r" in
      let h' := fresh "h" in
      destruct (host_answer R c h) as [r h'];
      cbn [fst snd];
      lazymatch type of r with
      | unit => destruct r
      | option bool => destruct r as [[|]|]
      | option string => idtac
      | option _ => destruct r
      | _ => idtac
      end
  end.

Ltac tidy :=
  cbv beta iota;
  cbn [value events final host pending enqueue fst snd negb truthy app].

Ltac step :=
  lazymatch goal with
  | |- context [bind (bind _ _) _ _] => rewrite run_bind_assoc
  | |- context [bind (ret _) _ _] => rewrite run_bind_ret
  | |- context [bind (call _) _ _] => rewrite run_bind_call; tidy; answer
  | |- context [call _ _] => rewrite run_call; tidy; answer
  | |- context [ret _ _] => rewrite run_ret
  end;
  tidy.

(** ** What one call of each function can do *)

Lemma createShader_outcome gl type source (s : State)
      (P : Outcome (option WebGLShader) -> Prop) :
  (forall h',
      P (mkOutcome None [Ev (GlCreateShader gl type) None]
                   (mkState h' (pending s)))) ->
  (forall shader status log h',
      truthy status = false ->
      P (mkOutcome None
           [Ev (GlCreateShader gl type) (Some shader);
            Ev (GlShaderSource gl shader source) tt;
            Ev (GlCompileShader gl shader) tt;
            Ev (GlGetShaderParameter gl shader GLenum.COMPILE_STATUS) status;
            Ev (GlGetShaderInfoLog gl shader) log;
            Ev (ConsoleError (msg_shader log)) tt;
            Ev (GlDeleteShader gl shader) tt]
           (mkState h' (pending s)))) ->
  (forall shader h',
      P (mkOutcome (Some shader)
           [Ev (GlCreateShader gl type) (Some shader);
            Ev (GlShaderSource gl shader source) tt;
            Ev (GlCompileShader gl shader) tt;
            Ev (GlGetShaderParameter gl shader GLenum.COMPILE_STATUS)
               (Some true)]
           (mkState h' (pending s)))) ->
  P (createShader gl type source s).
Proof.
  intros Halloc Hfail Hok. destruct s as [h q]. unfold createShader.
  repeat step; auto.
Qed.

Lemma createProgram_outcome gl vertShader fragShader (s : State)
      (P : Outcome (option WebGLProgram) -> Prop) :
  (forall h',
      P (mkOutcome None [Ev (GlCreateProgram gl) None]
                   (mkState h' (pending s)))) ->
  (forall program status log h',
      truthy status = false ->
      P (mkOutcome None
           [Ev (GlCreateProgram gl) (Some program);
            Ev (GlAttachShader gl program vertShader) tt;
            Ev (GlAttachShader gl program fragShader) tt;
            Ev (GlLinkProgram gl program) tt;
            Ev (GlGetProgramParameter gl program GLenum.LINK_STATUS) status;
            Ev (GlGetProgramInfoLog gl program) log;
            Ev (ConsoleError (msg_program log)) tt;
            Ev (GlDeleteProgram gl program) tt]
           (mkState h' (pending s)))) ->
  (forall program h',
      P (mkOutcome (Some program)
           [Ev (GlCreateProgram gl) (Some program);
            Ev (GlAttachShader gl program vertShader) tt;
            Ev (GlAttachShader gl program fragShader) tt;
            Ev (GlLinkProgram gl program) tt;
            Ev (GlGetProgramParameter gl program GLenum.LINK_STATUS)
               (Some true)]
           (mkState h' (pending s)))) ->
  P (createProgram gl vertShader fragShader s).
Proof.
  intros Halloc Hfail Hok. destruct s as [h q]. unfold createProgram.
  repeat step; auto.
Qed.

Lemma render_outcome gl program posBuffer colBuffer (s : State)
      (P : Outcome unit -> Prop) :
  (forall attrPosPtr attrColPtr h',
      P (mkOutcome tt
           [Ev (GlClearColor gl 1 1 1 1) tt;
            Ev (GlClear gl (Z.lor GLenum.COLOR_BUFFER_BIT
                                  GLenum.DEPTH_BUFFER_BIT)) tt;
            Ev (GlGetAttribLocation gl program "a_Pos") attrPosPtr;
            Ev (GlEnableVertexAttribArray gl attrPosPtr) tt;
            Ev (GlBindBuffer gl GLenum.ARRAY_BUFFER posBuffer) tt;
            Ev (GlBufferData gl GLenum.ARRAY_BUFFER (Float32Array pos)
                             GLenum.STATIC_DRAW) tt;
            Ev (GlVertexAttribPointer gl attrPosPtr 2 GLenum.FLOAT false
                                      0 0) tt;
            Ev (GlGetAttribLocation gl program "a_Col") attrColPtr;
            Ev (GlEnableVertexAttribArray gl attrColPtr) tt;
            Ev (GlBindBuffer gl GLenum.ARRAY_BUFFER colBuffer) tt;
            Ev (GlBufferData gl GLenum.ARRAY_BUFFER colors
                             GLenum.STATIC_DRAW) tt;
            Ev (GlVertexAttribPointer gl attrColPtr 4 GLenum.UNSIGNED_BYTE
                                      true 0 0) tt;
            Ev (GlDrawArrays gl GLenum.TRIANGLES 0
                             (Z.of_nat (List.length pos) / 2)) tt]
           (mkState h' (pending s)))) ->
  P (render gl program posBuffer colBuffer s).
Proof.
  intros H. destruct s as [h q]. unfold render.
  repeat step. apply H.
Qed.


(** ** Pending callbacks are touched by [requestAnimationFrame] only *)

Lemma createShader_pending gl type source (s : State) :
  pending (final (createShader gl type source s)) = pending s.
Proof.
  pattern (createShader gl type source s).
  apply createShader_outcome; intros; reflexivity.
Qed.

Lemma createProgram_pending gl vs fs (s : State) :
  pending (final (createProgram gl vs fs s)) = pending s.
Proof.
  pattern (createProgram gl vs fs s).
  apply createProgram_outcome; intros; reflexivity.
Qed.

Lemma context_of_pending (s s1 : State) canvas gl :
  context_of s = Some (canvas, gl, s1) -> pending s1 = pending s.
Proof.
  unfold context_of. rewrite run_call. cbn [value final].
  destruct (fst (host_answer _ (QuerySelector "#canvas") (host s)));
    [|discriminate].
  rewrite run_call. cbn [value final].
  destruct (fst (host_answer _ (GetContext h "webgl") _)); [|discriminate].
  intros H. injection H as _ _ <-. reflexivity.
Qed.

(** ** The five ways [main] can go *)

Lemma main_outcome (s : State) (P : Outcome unit -> Prop) :
  (context_of s = None ->
   forall h',
     P (mkOutcome tt
          [Ev (QuerySelector "#canvas") None;
           Ev (ConsoleError msg_no_canvas) tt]
          (mkState h' (pending s)))) ->
  (context_of s = None ->
   forall canvas h',
     P (mkOutcome tt
          [Ev (QuerySelector "#canvas") (Some canvas);
           Ev (GetContext canvas "webgl") None;
           Ev (ConsoleError msg_no_webgl) tt]
          (mkState h' (pending s)))) ->
  (forall canvas gl s1,
      context_of s = Some (canvas, gl, s1) ->
      let v := createShader gl VERTEX_SHADER vertProgram s1 in
      let f := createShader gl FRAGMENT_SHADER fragProgram (final v) in
      value v = None \/ value f = None ->
      forall h',
        P (mkOutcome tt
             ([Ev (QuerySelector "#canvas") (Some canvas);
               Ev (GetContext canvas "webgl") (Some gl)]
              ++ events v ++ events f
              ++ [Ev (ConsoleError msg_shaders_stop) tt])%list
             (mkState h' (pending s)))) ->
  (forall canvas gl s1 vertexShader fragmentShader,
      context_of s = Some (canvas, gl, s1) ->
      let v := createShader gl VERTEX_SHADER vertProgram s1 in
      let f := createShader gl FRAGMENT_SHADER fragProgram (final v) in
      let p := createProgram gl vertexShader fragmentShader (final f) in
      value v = Some vertexShader ->
      value f = Some fragmentShader ->
      value p = None ->
      forall h',
        P (mkOutcome tt
             ([Ev (QuerySelector "#canvas") (Some canvas);
               Ev (GetContext canvas "webgl") (Some gl)]
              ++ events v ++ events f ++ events p
              ++ [Ev (ConsoleError msg_program_stop) tt])%list
             (mkState h' (pending s)))) ->
  (forall canvas gl s1 vertexShader fragmentShader program,
      context_of s = Some (canvas, gl, s1) ->
      let v := createShader gl VERTEX_SHADER vertProgram s1 in
      let f := createShader gl FRAGMENT_SHADER fragProgram (final v) in
      let p := createProgram gl vertexShader fragmentShader (final f) in
      value v = Some vertexShader ->
      value f = Some fragmentShader ->
      value p = Some program ->
      forall posBuffer colBuffer dpr resized w h w' h' id host',
        P (mkOutcome tt
             ([Ev (QuerySelector "#canvas") (Some canvas);
               Ev (GetContext canvas "webgl") (Some gl)]
              ++ events v ++ events f ++ events p
              ++ [Ev (GlUseProgram gl program) tt;
                  Ev (GlCreateBuffer gl) posBuffer;
                  Ev (GlCreateBuffer gl) colBuffer;
                  Ev DevicePixelRatio dpr;
                  Ev (ResizeCanvasToDisplaySize canvas dpr) resized;
                  Ev (CanvasWidth canvas) w;
                  Ev (CanvasHeight canvas) h;
                  Ev (ConsoleLog (msg_resized resized w h)) tt;
                  Ev (CanvasWidth canvas) w';
                  Ev (CanvasHeight canvas) h';
                  Ev (GlViewport gl 0 0 w' h') tt;
                  Ev (RequestAnimationFrame
                        (RenderClosure gl program posBuffer colBuffer)) id;
                  Ev (ConsoleLog "done") tt])%list
             (mkState host'
                (pending s
                 ++ [RenderClosure gl program posBuffer colBuffer])%list))) ->
  P (main s).
Proof.
  intros Hcanvas Hwebgl Hshaders Hprogram Hdone.
  unfold main. unfold context_of in *.
  rewrite run_bind_call. rewrite run_call in *.
  destruct s as [h0 q0].
  cbn [value events final host pending enqueue] in *.
  destruct (host_answer _ (QuerySelector "#canvas") h0) as [[canvas|] h1];
    cbn [fst snd] in *; cbv beta iota in *.
  2:{ rewrite run_call; tidy; answer. apply Hcanvas; reflexivity. }
  clear Hcanvas.
  rewrite run_bind_call. rewrite run_call in *.
  cbn [value events final host pending enqueue] in *.
  destruct (host_answer _ (GetContext canvas "webgl") h1) as [[gl|] h2];
    cbn [fst snd] in *; cbv beta iota in *.
  2:{ rewrite run_call; tidy; answer. apply Hwebgl; reflexivity. }
  clear Hwebgl.
  specialize (Hshaders canvas gl _ eq_refl).
  specialize (fun vs fs => Hprogram canvas gl _ vs fs eq_refl).
  specialize (fun vs fs pr => Hdone canvas gl _ vs fs pr eq_refl).
  cbv zeta in *.
  rewrite run_bind.
  pose proof (createShader_pending gl VERTEX_SHADER vertProgram
                (mkState h2 q0)) as Pv.
  remember (createShader gl VERTEX_SHADER vertProgram (mkState h2 q0)) as v.
  clear Heqv.
  cbv beta.
  rewrite run_bind.
  pose proof (createShader_pending gl FRAGMENT_SHADER fragProgram
                (final v)) as Pf.
  remember (createShader gl FRAGMENT_SHADER fragProgram (final v)) as f.
  clear Heqf.
  cbn [value events final pending] in *. rewrite Pv in Pf. clear Pv.
  destruct (final f) as [hf qf]. cbn [pending] in Pf. subst qf.
  destruct (value v) as [vs|].
  2:{ rewrite run_call; tidy; answer. apply Hshaders. now left. }
  destruct (value f) as [fs|].
  2:{ rewrite run_call; tidy; answer. apply Hshaders. now right. }
  clear Hshaders.
  specialize (Hprogram vs fs eq_refl eq_refl).
  specialize (fun pr => Hdone vs fs pr eq_refl eq_refl).
  rewrite run_bind.
  pose proof (createProgram_pending gl vs fs (mkState hf q0)) as Pp.
  remember (createProgram gl vs fs (mkState hf q0)) as p.
  clear Heqp.
  destruct (final p) as [hp qp]. cbn [pending] in Pp. subst qp.
  destruct (value p) as [program|]; cbv beta iota.
  2:{ rewrite run_call; tidy; answer. apply Hprogram. reflexivity. }
  repeat step; apply Hdone; reflexivity.
Qed.

(** ** Kinds of calls each function makes *)

Lemma createShader_calls (X : Event -> bool) gl type source (s : State) :
  (forall e, is_shader_work e || is_error e = true -> X e = false) ->
  existsb X (events (createShader gl type source s)) = false.
Proof.
  intros HX. pattern (createShader gl type source s).
  apply createShader_outcome; intros; cbn [events existsb];
    rewrite ?HX by reflexivity; reflexivity.
Qed.

Lemma createProgram_calls (X : Event -> bool) gl vs fs (s : State) :
  (forall e, is_program_work e || is_error e = true -> X e = false) ->
  existsb X (events (createProgram gl vs fs s)) = false.
Proof.
  intros HX. pattern (createProgram gl vs fs s).
  apply createProgram_outcome; intros; cbn [events existsb];
    rewrite ?HX by reflexivity; reflexivity.
Qed.

(** Decide a side condition of the two lemmas above by cases on the
    command. *)
Ltac by_command :=
  let c := fresh "c" in
  intros [? c ?]; destruct c; cbn; intros; (discriminate || reflexivity).

Lemma createShader_null_on_failure gl type source (s : State) :
  existsb compile_status_failed (events (createShader gl type source s))
  = true ->
  value (createShader gl type source s) = None.
Proof.
  pattern (createShader gl type source s).
  apply createShader_outcome; intros; cbn in *; congruence.
Qed.

Lemma length_pos : List.length pos = 18%nat.
Proof. reflexivity. Qed.

(** ** The shader compiler and the program linker *)

(** C4.  When the compile status of a shader comes back falsy,
    [createShader] fetches the info log, writes a non-empty message to
    [console.error], deletes the shader it had allocated, and returns
    [null]; the handle is no longer live when it returns.  The message is
    the heading of lines 19-20, then the text of the log just fetched (the
    word null when the host gave none), then the closing line break and
    indentation. *)
Theorem createShader_compile_failure gl type source (s : State) :
  existsb compile_status_failed (events (createShader gl type source s))
  = true ->
  exists shader status log,
    events (createShader gl type source s) =
      [Ev (GlCreateShader gl type) (Some shader);
       Ev (GlShaderSource gl shader source) tt;
       Ev (GlCompileShader gl shader) tt;
       Ev (GlGetShaderParameter gl shader GLenum.COMPILE_STATUS) status;
       Ev (GlGetShaderInfoLog gl shader) log;
       Ev (ConsoleError (msg_shader log)) tt;
       Ev (GlDeleteShader gl shader) tt]
    /\ truthy status = false
    /\ msg_shader log <> ""
    /\ live_shaders (events (createShader gl type source s)) = []
    /\ value (createShader gl type source s) = None
    /\ msg_shader log
       = ("Could not compile WebGL shader."
          ++ String "010" (String "010" "      "))
         ++ match log with Some text => text | None => "null" end
         ++ String "010" "      ".
Proof.
  pattern (createShader gl type source s).
  apply createShader_outcome.
  - intros h' H. discriminate H.
  - intros shader status log h' Hst _.
    exists shader, status, log. cbn [events value].
    repeat split; trivial.
    + discriminate.
    + destruct shader as [n]. cbn. now rewrite Nat.eqb_refl.
  - intros shader h' H. discriminate H.
Qed.

(** C5.  When the link status of a program comes back falsy,
    [createProgram] fetches the info log, writes a non-empty message to
    [console.error], deletes the program it had allocated, and returns
    [null].  The message is the heading of lines 40-41, then the text of
    the log just fetched (the word null when the host gave none), then the
    closing line break and indentation. *)
Theorem createProgram_link_failure gl vertShader fragShader (s : State) :
  existsb link_status_failed
          (events (createProgram gl vertShader fragShader s)) = true ->
  exists program status log,
    events (createProgram gl vertShader fragShader s) =
      [Ev (GlCreateProgram gl) (Some program);
       Ev (GlAttachShader gl program vertShader) tt;
       Ev (GlAttachShader gl program fragShader) tt;
       Ev (GlLinkProgram gl program) tt;
       Ev (GlGetProgramParameter gl program GLenum.LINK_STATUS) status;
       Ev (GlGetProgramInfoLog gl program) log;
       Ev (ConsoleError (msg_program log)) tt;
       Ev (GlDeleteProgram gl program) tt]
    /\ truthy status = false
    /\ msg_program log <> ""
    /\ live_programs (events (createProgram gl vertShader fragShader s)) = []
    /\ value (createProgram gl vertShader fragShader s) = None
    /\ msg_program log
       = ("Could not compile WebGL program."
          ++ String "010" ("    " ++ String "010" "      "))
         ++ match log with Some text => text | None => "null" end
         ++ String "010" "      ".
Proof.
  pattern (createProgram gl vertShader fragShader s).
  apply createProgram_outcome.
  - intros h' H. discriminate H.
  - intros program status log h' Hst _.
    exists program, status, log. cbn [events value].
    repeat split; trivial.
    + discriminate.
    + destruct program as [n]. cbn. now rewrite Nat.eqb_refl.
  - intros program h' H. discriminate H.
Qed.

(** ** The vertex data *)

(** C3.  [pos] holds 18 numbers and [colors] 36 bytes, that is 9 vertices
    of 2 coordinates and 9 colours of 4 channels; the arrays are
    constants, and every invocation of the render function uploads arrays
    of exactly these lengths. *)
Theorem vertex_data_sizes :
  List.length pos = 18%nat
  /\ colors = Uint8Array colors_elems
  /\ List.length colors_elems = 36%nat
  /\ Forall (fun b => 0 <= b < 256) colors_elems
  /\ Z.of_nat (List.length pos) = 2 * 9
  /\ Z.of_nat (List.length colors_elems) = 4 * 9
  /\ Z.of_nat (List.length pos) / 2 = 9
  /\ Z.of_nat (List.length colors_elems) / 4 = 9
  /\ forall cb (s : State),
       map uploaded_length (filter is_upload (events (invoke cb s)))
       = [18%nat; 36%nat].
Proof.
  repeat split; try reflexivity.
  - unfold colors_elems, colors, new_Uint8Array.
    repeat constructor; cbn; lia.
  - intros [gl program posBuffer colBuffer] s. unfold invoke.
    pattern (render gl program posBuffer colBuffer s).
    apply render_outcome; intros. reflexivity.
Qed.

(** ** One invocation of the render function *)

(** C2.  An invocation of the render function starts by setting the clear
    colour to opaque white and clearing the colour and depth buffers, and
    ends with its only draw call, [drawArrays(TRIANGLES, 0, 9)]. *)
Theorem render_clears_then_draws_once gl program posBuffer colBuffer
        (s : State) :
  let log := events (render gl program posBuffer colBuffer s) in
  let mask := Z.lor GLenum.COLOR_BUFFER_BIT GLenum.DEPTH_BUFFER_BIT in
  let draw := Ev (GlDrawArrays gl GLenum.TRIANGLES 0 9) tt in
  (exists between,
      log = (Ev (GlClearColor gl 1 1 1 1) tt :: Ev (GlClear gl mask) tt ::
             between ++ [draw])%list
      /\ existsb is_clear between = false
      /\ existsb is_draw between = false)
  /\ filter is_draw log = [draw]
  /\ mask = 0x4100
  /\ Z.testbit mask 14 = true
  /\ Z.testbit mask 8 = true
  /\ GLenum.TRIANGLES = 4.
Proof.
  cbv zeta.
  pattern (render gl program posBuffer colBuffer s).
  apply render_outcome; intros attrPosPtr attrColPtr h'.
  cbn [events]. repeat split; try reflexivity.
  eexists. repeat split.
  - cbn [app]. do 2 f_equal. 
    instantiate (1 := 
      [Ev (GlGetAttribLocation gl program "a_Pos") attrPosPtr;
       Ev (GlEnableVertexAttribArray gl attrPosPtr) tt;
       Ev (GlBindBuffer gl GLenum.ARRAY_BUFFER posBuffer) tt;
       Ev (GlBufferData gl GLenum.ARRAY_BUFFER (Float32Array pos)
                        GLenum.STATIC_DRAW) tt;
       Ev (GlVertexAttribPointer gl attrPosPtr 2 GLenum.FLOAT false 0 0) tt;
       Ev (GlGetAttribLocation gl program "a_Col") attrColPtr;
       Ev (GlEnableVertexAttribArray gl attrColPtr) tt;
       Ev (GlBindBuffer gl GLenum.ARRAY_BUFFER colBuffer) tt;
       Ev (GlBufferData gl GLenum.ARRAY_BUFFER colors GLenum.STATIC_DRAW) tt;
       Ev (GlVertexAttribPointer gl attrColPtr 4 GLenum.UNSIGNED_BYTE true
                                 0 0) tt]).
    reflexivity.
  - reflexivity.
  - reflexivity.
Qed.

Lemma createShader_success gl type source (s : State) shader :
  value (createShader gl type source s) = Some shader ->
  events (createShader gl type source s) =
    [Ev (GlCreateShader gl type) (Some shader);
     Ev (GlShaderSource gl shader source) tt;
     Ev (GlCompileShader gl shader) tt;
     Ev (GlGetShaderParameter gl shader GLenum.COMPILE_STATUS) (Some true)].
Proof.
  pattern (createShader gl type source s).
  apply createShader_outcome; cbn [value events]; intros;
    try discriminate.
  congruence.
Qed.

Lemma createProgram_success gl vs fs (s : State) program :
  value (createProgram gl vs fs s) = Some program ->
  events (createProgram gl vs fs s) =
    [Ev (GlCreateProgram gl) (Some program);
     Ev (GlAttachShader gl program vs) tt;
     Ev (GlAttachShader gl program fs) tt;
     Ev (GlLinkProgram gl program) tt;
     Ev (GlGetProgramParameter gl program GLenum.LINK_STATUS) (Some true)].
Proof.
  pattern (createProgram gl vs fs s).
  apply createProgram_outcome; cbn [value events]; intros;
    try discriminate.
  congruence.
Qed.

(** Search a log of [main] for a kind of call that neither the shader
    compiler nor the linker makes. *)
Ltac scan :=
  repeat match goal with x := _ |- _ => subst x end;
  cbn [events value final pending];
  rewrite ?existsb_app;
  repeat match goal with
    | |- context [existsb ?X (events (createShader ?gl ?t ?src ?s))] =>
        rewrite (createShader_calls X gl t src s) by by_command
    | |- context [existsb ?X (events (createProgram ?gl ?vs ?fs ?s))] =>
        rewrite (createProgram_calls X gl vs fs s) by by_command
    end;
  cbn [existsb app orb is_error is_shader_work is_program_work
       is_create_program is_buffer_work is_upload is_draw is_clear
       is_schedule is_use_program buffer_alloc_failed handle_alloc_failed
       compile_status_failed link_status_failed];
  try reflexivity.

Lemma main_uploads_nothing (s : State) :
  existsb is_upload (events (main s)) = false.
Proof.
  pattern (main s). apply main_outcome; intros; scan.
Qed.

(** C8.  Every invocation of the render function uploads [pos] to the
    position buffer and [colors] to the colour buffer (and [main] itself
    uploads nothing).  When each upload has been made the attribute's
    array is enabled, and the call that follows the upload describes the
    attribute: position as 2 [FLOAT] components, not normalised, stride 0,
    offset 0; colour as 4 [UNSIGNED_BYTE] components, normalised,
    stride 0, offset 0. *)
Theorem render_uploads_and_describes gl program posBuffer colBuffer
        (s : State) :
  exists attrPosPtr attrColPtr,
    let cleared :=
      [Ev (GlClearColor gl 1 1 1 1) tt;
       Ev (GlClear gl (Z.lor GLenum.COLOR_BUFFER_BIT
                             GLenum.DEPTH_BUFFER_BIT)) tt] in
    let pos_ready :=
      [Ev (GlGetAttribLocation gl program "a_Pos") attrPosPtr;
       Ev (GlEnableVertexAttribArray gl attrPosPtr) tt;
       Ev (GlBindBuffer gl GLenum.ARRAY_BUFFER posBuffer) tt] in
    let pos_upload :=
      Ev (GlBufferData gl GLenum.ARRAY_BUFFER (Float32Array pos)
                       GLenum.STATIC_DRAW) tt in
    let pos_described :=
      Ev (GlVertexAttribPointer gl attrPosPtr 2 GLenum.FLOAT false 0 0) tt in
    let col_ready :=
      [Ev (GlGetAttribLocation gl program "a_Col") attrColPtr;
       Ev (GlEnableVertexAttribArray gl attrColPtr) tt;
       Ev (GlBindBuffer gl GLenum.ARRAY_BUFFER colBuffer) tt] in
    let col_upload :=
      Ev (GlBufferData gl GLenum.ARRAY_BUFFER colors GLenum.STATIC_DRAW) tt in
    let col_described :=
      Ev (GlVertexAttribPointer gl attrColPtr 4 GLenum.UNSIGNED_BYTE true
                                0 0) tt in
    let draw := Ev (GlDrawArrays gl GLenum.TRIANGLES 0 9) tt in
    let log := events (render gl program posBuffer colBuffer s) in
    log = (cleared ++ pos_ready ++ [pos_upload; pos_described]
           ++ col_ready ++ [col_upload; col_described] ++ [draw])%list
    /\ filter is_upload log = [pos_upload; col_upload]
    /\ (let a := vertex_arrays (cleared ++ pos_ready ++ [pos_upload]) in
        array_buffer a = posBuffer /\ enabled a attrPosPtr = true)
    /\ (let a := vertex_arrays
                   (cleared ++ pos_ready ++ [pos_upload; pos_described]) in
        enabled a attrPosPtr = true
        /\ pointer a attrPosPtr
           = Some (mkPointer posBuffer 2 GLenum.FLOAT false 0 0))
    /\ (let a := vertex_arrays
                   (cleared ++ pos_ready ++ [pos_upload; pos_described]
                    ++ col_ready ++ [col_upload]) in
        array_buffer a = colBuffer /\ enabled a attrColPtr = true)
    /\ (let a := vertex_arrays log in
        enabled a attrPosPtr = true
        /\ enabled a attrColPtr = true
        /\ pointer a attrColPtr
           = Some (mkPointer colBuffer 4 GLenum.UNSIGNED_BYTE true 0 0))
    /\ GLenum.FLOAT = 0x1406
    /\ GLenum.UNSIGNED_BYTE = 0x1401
    /\ forall s0 : State, existsb is_upload (events (main s0)) = false.
Proof.
  pattern (render gl program posBuffer colBuffer s).
  apply render_outcome; intros attrPosPtr attrColPtr h'.
  exists attrPosPtr, attrColPtr.
  cbn [events app]. cbv zeta.
  unfold vertex_arrays.
  cbn [fold_left track_arrays filter is_upload no_arrays].
  rewrite !Z.eqb_refl.
  repeat split;
    cbn [array_buffer enabled pointer]; rewrite ?Z.eqb_refl;
    try reflexivity.
  - destruct (Z.eqb attrPosPtr attrColPtr); reflexivity.
  - apply main_uploads_nothing.
Qed.

(** ** The animation-frame queue *)

Lemma render_schedules_nothing gl program posBuffer colBuffer (s : State) :
  existsb is_schedule (events (render gl program posBuffer colBuffer s))
  = false
  /\ pending (final (render gl program posBuffer colBuffer s)) = pending s.
Proof.
  pattern (render gl program posBuffer colBuffer s).
  apply render_outcome; intros. split; reflexivity.
Qed.

Lemma invoke_all_pending cbs (s : State) :
  pending (final (invoke_all cbs s)) = pending s.
Proof.
  revert s. induction cbs as [|[gl program posBuffer colBuffer] rest IH];
    intros s; cbn [invoke_all invoke].
  - reflexivity.
  - rewrite run_bind. cbn [final]. rewrite IH.
    apply render_schedules_nothing.
Qed.

Lemma refresh_empties (s : State) : pending (final (refresh s)) = [].
Proof. unfold refresh. now rewrite invoke_all_pending. Qed.

Lemma refreshes_idle n (s : State) :
  pending s = [] ->
  events (refreshes n s) = [] /\ pending (final (refreshes n s)) = [].
Proof.
  revert s. induction n as [|n IH]; intros s Hs; cbn [refreshes].
  - split; [reflexivity | exact Hs].
  - rewrite run_bind. cbn [events final].
    destruct (IH (final (refresh s)) (refresh_empties s)) as [-> ->].
    unfold refresh. destruct s as [h q]. cbn in Hs. subst q.
    split; reflexivity.
Qed.

(** After the first refresh nothing is left to run: further refreshes add
    no call to the log. *)
Lemma refreshes_after_first n (s : State) :
  events (refreshes (S n) s) = events (refresh s)
  /\ pending (final (refreshes (S n) s)) = [].
Proof.
  cbn [refreshes]. rewrite run_bind. cbn [events final].
  destruct (refreshes_idle n (final (refresh s)) (refresh_empties s))
    as [-> ->].
  now rewrite app_nil_r.
Qed.

(** ** Start-up *)

(** Two facts about the same start of [main] agree. *)
Ltac same_context :=
  match goal with
  | H : context_of ?s = Some _, H' : context_of ?s = None |- _ =>
      rewrite H in H'; discriminate H'
  | H : context_of ?s = None, H' : context_of ?s = Some _ |- _ =>
      rewrite H in H'; discriminate H'
  | H : context_of ?s = Some (?c, ?g, ?t),
    H' : context_of ?s = Some (?c', ?g', ?t') |- _ =>
      first [ is_var c' | is_var g' | is_var t' ];
      rewrite H in H'; injection H' as <- <- <-
  end.

Ltac inline_lets := repeat match goal with x := _ |- _ => subst x end.

Lemma main_when_shaders_fail (s s1 : State) canvas gl :
  context_of s = Some (canvas, gl, s1) ->
  let v := createShader gl VERTEX_SHADER vertProgram s1 in
  let f := createShader gl FRAGMENT_SHADER fragProgram (final v) in
  value v = None \/ value f = None ->
  events (main s) =
    ([Ev (QuerySelector "#canvas") (Some canvas);
      Ev (GetContext canvas "webgl") (Some gl)]
     ++ events v ++ events f
     ++ [Ev (ConsoleError msg_shaders_stop) tt])%list
  /\ pending (final (main s)) = pending s.
Proof.
  intros Hctx v f Hfail. pattern (main s). apply main_outcome; intros;
    try same_context.
  - split; reflexivity.
  - exfalso. inline_lets. destruct Hfail; congruence.
  - exfalso. inline_lets. destruct Hfail; congruence.
Qed.

(** C6.  When the compile status of the vertex shader comes back falsy,
    [createShader] returns [null] for that stage, and [main] stops at the
    message "Unable to compile shaders. Stopping.": it never calls
    [createProgram] or any other program or buffer function, and it
    registers no render callback. *)
Theorem vertex_failure_halts_startup (s s1 : State) canvas gl :
  context_of s = Some (canvas, gl, s1) ->
  existsb compile_status_failed
          (events (createShader gl VERTEX_SHADER vertProgram s1)) = true ->
  value (createShader gl VERTEX_SHADER vertProgram s1) = None
  /\ (exists before,
         events (main s)
         = (before ++ [Ev (ConsoleError msg_shaders_stop) tt])%list)
  /\ existsb is_create_program (events (main s)) = false
  /\ existsb is_program_work (events (main s)) = false
  /\ existsb is_buffer_work (events (main s)) = false
  /\ existsb is_draw (events (main s)) = false
  /\ existsb is_schedule (events (main s)) = false
  /\ pending (final (main s)) = pending s.
Proof.
  intros Hctx Hstatus.
  apply createShader_null_on_failure in Hstatus.
  destruct (main_when_shaders_fail s s1 canvas gl Hctx (or_introl Hstatus))
    as [Hlog Hpending].
  split; [exact Hstatus|].
  rewrite Hlog, Hpending.
  split.
  { eexists. rewrite !app_assoc. reflexivity. }
  repeat split; scan.
Qed.


(** C9.  Once the context is there, [main] runs [createShader] for the
    vertex stage and then for the fragment stage whatever the first call
    returned, and looks at the two results only after both calls; if
    either is [null] it logs the one message
    "Unable to compile shaders. Stopping." and returns. *)
Theorem both_stages_compiled_before_check (s s1 : State) canvas gl :
  context_of s = Some (canvas, gl, s1) ->
  let v := createShader gl VERTEX_SHADER vertProgram s1 in
  let f := createShader gl FRAGMENT_SHADER fragProgram (final v) in
  (exists answer rest,
      events f = Ev (GlCreateShader gl FRAGMENT_SHADER) answer :: rest)
  /\ (exists rest,
         events (main s) =
           ([Ev (QuerySelector "#canvas") (Some canvas);
             Ev (GetContext canvas "webgl") (Some gl)]
            ++ events v ++ events f ++ rest)%list
         /\ existsb is_shader_work rest = false
         /\ (value v = None \/ value f = None ->
             rest = [Ev (ConsoleError msg_shaders_stop) tt]
             /\ pending (final (main s)) = pending s)).
Proof.
  intros Hctx v f. split.
  - subst f. pattern (createShader gl FRAGMENT_SHADER fragProgram (final v)).
    apply createShader_outcome; intros; cbn [events]; eauto.
  - pattern (main s). apply main_outcome; intros; try same_context.
    + eexists. split; [reflexivity|]. split; [reflexivity|].
      intros _. split; reflexivity.
    + eexists. split; [reflexivity|]. split.
      * scan.
      * intros Hfail. exfalso. inline_lets. destruct Hfail; congruence.
    + eexists. split; [reflexivity|]. split.
      * scan.
      * intros Hfail. exfalso. inline_lets. destruct Hfail; congruence.
Qed.

(** The premise says the log holds a call that this run cannot hold. *)
Ltac absurd_premise :=
  match goal with
  | H : existsb _ _ = true |- _ => revert H; scan; discriminate
  end.

(** C10.  [main] never looks at what [createBuffer] returned.  When the
    host answers [null] for a buffer, [main] logs no error, runs to its
    last line and registers the render callback with that [null]; the
    callback passes it to [bindBuffer] and goes on to [bufferData].
    A refused shader or program handle, by contrast, always ends [main]
    with an error message and nothing registered. *)
Theorem buffer_allocation_is_unchecked (s : State) :
  existsb buffer_alloc_failed (events (main s)) = true ->
  (exists gl program posBuffer colBuffer before between id,
      (posBuffer = None \/ colBuffer = None)
      /\ events (main s) =
           (before
            ++ [Ev (GlCreateBuffer gl) posBuffer;
                Ev (GlCreateBuffer gl) colBuffer]
            ++ between
            ++ [Ev (RequestAnimationFrame
                      (RenderClosure gl program posBuffer colBuffer)) id;
                Ev (ConsoleLog "done") tt])%list
      /\ existsb is_error (events (main s)) = false
      /\ pending (final (main s))
         = (pending s ++ [RenderClosure gl program posBuffer colBuffer])%list
      /\ forall s' : State,
         exists ahead middle behind,
           events (invoke (RenderClosure gl program posBuffer colBuffer) s')
           = (ahead
              ++ [Ev (GlBindBuffer gl GLenum.ARRAY_BUFFER posBuffer) tt;
                  Ev (GlBufferData gl GLenum.ARRAY_BUFFER (Float32Array pos)
                                   GLenum.STATIC_DRAW) tt]
              ++ middle
              ++ [Ev (GlBindBuffer gl GLenum.ARRAY_BUFFER colBuffer) tt;
                  Ev (GlBufferData gl GLenum.ARRAY_BUFFER colors
                                   GLenum.STATIC_DRAW) tt]
              ++ behind)%list)
  /\ (forall s' : State,
         existsb handle_alloc_failed (events (main s')) = true ->
         existsb is_error (events (main s')) = true
         /\ existsb is_schedule (events (main s')) = false
         /\ pending (final (main s')) = pending s').
Proof.
  intros Hnull. split.
  - revert Hnull. pattern (main s). apply main_outcome;
      try (intros; exfalso; absurd_premise).
    intros canvas gl s1 vs fs program Hctx. cbv zeta.
    intros Hv Hf Hp posBuffer colBuffer dpr resized w h w' h' id host' Hnull.
    rewrite (createShader_success _ _ _ _ _ Hv) in *.
    rewrite (createShader_success _ _ _ _ _ Hf) in *.
    rewrite (createProgram_success _ _ _ _ _ Hp) in *.
    cbn [events final pending] in *.
    exists gl, program, posBuffer, colBuffer.
    eexists. eexists. exists id.
    split; [|split; [|split; [|split]]].
    + destruct posBuffer; [|now left].
      destruct colBuffer; [|now right].
      discriminate Hnull.
    + cbn [app]. 
      match goal with
      | |- ?e1 :: ?e2 :: ?e3 :: ?e4 :: ?e5 :: ?e6 :: ?e7 :: ?e8 :: ?e9
           :: ?e10 :: ?e11 :: ?e12 :: ?e13 :: ?e14 :: ?e15 :: ?e16 :: _
           = _ =>
          instantiate
            (2 := [e1; e2; e3; e4; e5; e6; e7; e8; e9; e10; e11; e12; e13;
                   e14; e15; e16])
      end.
      cbn [app]. do 18 f_equal.
      match goal with
      | |- ?a1 :: ?a2 :: ?a3 :: ?a4 :: ?a5 :: ?a6 :: ?a7 :: ?a8 :: _ = _ =>
          instantiate (1 := [a1; a2; a3; a4; a5; a6; a7; a8])
      end.
      reflexivity.
    + reflexivity.
    + reflexivity.
    + intros s'. unfold invoke.
      pattern (render gl program posBuffer colBuffer s').
      apply render_outcome; intros attrPosPtr attrColPtr h''.
      cbn [events].
      exists [Ev (GlClearColor gl 1 1 1 1) tt;
              Ev (GlClear gl (Z.lor GLenum.COLOR_BUFFER_BIT
                                    GLenum.DEPTH_BUFFER_BIT)) tt;
              Ev (GlGetAttribLocation gl program "a_Pos") attrPosPtr;
              Ev (GlEnableVertexAttribArray gl attrPosPtr) tt],
             [Ev (GlVertexAttribPointer gl attrPosPtr 2 GLenum.FLOAT false
                                        0 0) tt;
              Ev (GlGetAttribLocation gl program "a_Col") attrColPtr;
              Ev (GlEnableVertexAttribArray gl attrColPtr) tt].
      eexists. reflexivity.
  - clear s Hnull. intros s'. pattern (main s'). apply main_outcome;
      try (intros; exfalso; absurd_premise).
    + intros canvas gl s1 Hctx. cbv zeta. intros Hfail h' _. scan.
      rewrite !orb_true_r. repeat split; reflexivity.
    + intros canvas gl s1 vs fs Hctx. cbv zeta. intros Hv Hf Hp h' _. scan.
      rewrite !orb_true_r. repeat split; reflexivity.
    + intros canvas gl s1 vs fs program Hctx. cbv zeta.
      intros Hv Hf Hp posBuffer colBuffer dpr resized w h w' h' id host'.
      rewrite (createShader_success _ _ _ _ _ Hv).
      rewrite (createShader_success _ _ _ _ _ Hf).
      rewrite (createProgram_success _ _ _ _ _ Hp).
      cbn. discriminate.
Qed.

(** ** Beyond the failure paths: what each function does in every case *)

Lemma filter_none (X : Event -> bool) (log : list Event) :
  existsb X log = false -> filter X log = [].
Proof.
  induction log as [|e log IH]; cbn; [reflexivity|].
  destruct (X e); cbn; [discriminate | exact IH].
Qed.

(** X1.  [createShader] returns [null] exactly when the host refused the
    handle or answered a falsy compile status; it writes to
    [console.error] and deletes a shader in the second case only, and then
    exactly once. *)
Theorem createShader_null_exactly_on_failure gl type source (s : State) :
  let r := createShader gl type source s in
  is_none (value r)
  = existsb handle_alloc_failed (events r)
    || existsb compile_status_failed (events r)
  /\ count is_error (events r)
     = (if existsb compile_status_failed (events r) then 1 else 0)%nat
  /\ count is_delete_shader (events r) = count is_error (events r)
  /\ count is_create_shader (events r) = 1%nat.
Proof.
  cbv zeta. pattern (createShader gl type source s).
  apply createShader_outcome.
  - intros h'. repeat split; reflexivity.
  - intros shader status log h' Hst. unfold count.
    cbn [value events is_none existsb filter handle_alloc_failed
         compile_status_failed is_error is_delete_shader is_create_shader
         orb List.length].
    rewrite Hst. repeat split; reflexivity.
  - intros shader h'. repeat split; reflexivity.
Qed.

(** X2.  When the host refuses the shader handle, [createShader] returns
    [null] at once: it sets no source, compiles nothing, asks for no status
    and writes no message. *)
Theorem createShader_allocation_refused gl type source (s : State) :
  existsb handle_alloc_failed (events (createShader gl type source s)) = true ->
  events (createShader gl type source s) = [Ev (GlCreateShader gl type) None]
  /\ value (createShader gl type source s) = None
  /\ pending (final (createShader gl type source s)) = pending s.
Proof.
  pattern (createShader gl type source s).
  apply createShader_outcome; cbn [value events final pending]; intros;
    try discriminate.
  repeat split; reflexivity.
Qed.

(** X3.  When [createShader] returns a handle, it is the one the host
    allocated in this call; the call set the source, compiled, read a truthy
    status, wrote nothing to the console and deleted nothing, so the handle
    is live. *)
Theorem createShader_success_keeps_handle gl type source (s : State) shader :
  value (createShader gl type source s) = Some shader ->
  events (createShader gl type source s) =
    [Ev (GlCreateShader gl type) (Some shader);
     Ev (GlShaderSource gl shader source) tt;
     Ev (GlCompileShader gl shader) tt;
     Ev (GlGetShaderParameter gl shader GLenum.COMPILE_STATUS) (Some true)]
  /\ live_shaders (events (createShader gl type source s)) = [shader]
  /\ existsb is_console (events (createShader gl type source s)) = false
  /\ existsb is_delete_shader (events (createShader gl type source s)) = false.
Proof.
  pattern (createShader gl type source s).
  apply createShader_outcome; cbn [value events]; intros; try discriminate.
  match goal with H : Some _ = Some _ |- _ => injection H as -> end.
  repeat split; reflexivity.
Qed.

(** X4.  [createProgram] returns [null] exactly when the host refused the
    handle or answered a falsy link status; it writes to [console.error]
    and deletes a program in the second case only.  In no case does it
    create, delete or otherwise touch a shader beyond attaching it, and it
    never makes the program current. *)
Theorem createProgram_null_exactly_on_failure gl vertShader fragShader
        (s : State) :
  let r := createProgram gl vertShader fragShader s in
  is_none (value r)
  = existsb handle_alloc_failed (events r)
    || existsb link_status_failed (events r)
  /\ count is_error (events r)
     = (if existsb link_status_failed (events r) then 1 else 0)%nat
  /\ count is_delete_program (events r) = count is_error (events r)
  /\ existsb is_shader_work (events r) = false
  /\ existsb is_use_program (events r) = false.
Proof.
  cbv zeta. pattern (createProgram gl vertShader fragShader s).
  apply createProgram_outcome.
  - intros h'. repeat split; reflexivity.
  - intros program status log h' Hst. unfold count.
    cbn [value events is_none existsb filter handle_alloc_failed
         link_status_failed is_error is_delete_program is_shader_work
         is_use_program orb List.length].
    rewrite Hst. repeat split; reflexivity.
  - intros program h'. repeat split; reflexivity.
Qed.

(** X5.  When [createProgram] returns a handle, it is the one the host
    allocated in this call, with the vertex shader attached first and the
    fragment shader second, then linked; nothing was written to the console
    and the program is live. *)
Theorem createProgram_success_attaches_in_order gl vertShader fragShader
        (s : State) program :
  value (createProgram gl vertShader fragShader s) = Some program ->
  events (createProgram gl vertShader fragShader s) =
    [Ev (GlCreateProgram gl) (Some program);
     Ev (GlAttachShader gl program vertShader) tt;
     Ev (GlAttachShader gl program fragShader) tt;
     Ev (GlLinkProgram gl program) tt;
     Ev (GlGetProgramParameter gl program GLenum.LINK_STATUS) (Some true)]
  /\ live_programs (events (createProgram gl vertShader fragShader s))
     = [program]
  /\ existsb is_console (events (createProgram gl vertShader fragShader s))
     = false.
Proof.
  pattern (createProgram gl vertShader fragShader s).
  apply createProgram_outcome; cbn [value events]; intros; try discriminate.
  match goal with H : Some _ = Some _ |- _ => injection H as -> end.
  repeat split; reflexivity.
Qed.

(** X6.  When the host refuses the program handle, [createProgram] returns
    [null] at once: it attaches nothing, links nothing and writes no
    message. *)
Theorem createProgram_allocation_refused gl vertShader fragShader (s : State) :
  existsb handle_alloc_failed
          (events (createProgram gl vertShader fragShader s)) = true ->
  events (createProgram gl vertShader fragShader s)
  = [Ev (GlCreateProgram gl) None]
  /\ value (createProgram gl vertShader fragShader s) = None
  /\ pending (final (createProgram gl vertShader fragShader s)) = pending s.
Proof.
  pattern (createProgram gl vertShader fragShader s).
  apply createProgram_outcome; cbn [value events final pending]; intros;
    try discriminate.
  repeat split; reflexivity.
Qed.

(** ** [main] as a whole *)

(** Replace the log of a successful compile or link by its calls. *)
Ltac spell_out :=
  repeat match goal with
    | H : value (createShader ?gl ?t ?src ?s) = Some ?sh
      |- context [events (createShader ?gl ?t ?src ?s)] =>
        rewrite (createShader_success gl t src s sh H)
    | H : value (createProgram ?gl ?vs ?fs ?s) = Some ?p
      |- context [events (createProgram ?gl ?vs ?fs ?s)] =>
        rewrite (createProgram_success gl vs fs s p H)
    end.

Lemma createShader_counts gl type source (s : State) :
  count is_delete_shader (events (createShader gl type source s))
  = count compile_status_failed (events (createShader gl type source s))
  /\ count is_create_shader (events (createShader gl type source s)) = 1%nat.
Proof.
  pattern (createShader gl type source s).
  apply createShader_outcome; intros; try (split; reflexivity).
  unfold count.
  cbn [events filter compile_status_failed is_delete_shader is_create_shader
       List.length].
  match goal with H : truthy _ = false |- _ => rewrite H end.
  split; reflexivity.
Qed.

Lemma createProgram_counts gl vs fs (s : State) :
  count is_delete_program (events (createProgram gl vs fs s))
  = count link_status_failed (events (createProgram gl vs fs s))
  /\ count is_create_program (events (createProgram gl vs fs s)) = 1%nat.
Proof.
  pattern (createProgram gl vs fs s).
  apply createProgram_outcome; intros; try (split; reflexivity).
  unfold count.
  cbn [events filter link_status_failed is_delete_program is_create_program
       List.length].
  match goal with H : truthy _ = false |- _ => rewrite H end.
  split; reflexivity.
Qed.

(** Bring in the counts of every compile and link the goal mentions. *)
Ltac recall_counts :=
  repeat match goal with
    | |- context [events (createShader ?gl ?t ?src ?st)] =>
        lazymatch goal with
        | _ : count _ (events (createShader gl t src st)) = _ /\ _ |- _ =>
            fail
        | _ => pose proof (createShader_counts gl t src st)
        end
    | |- context [events (createProgram ?gl ?vs ?fs ?st)] =>
        lazymatch goal with
        | _ : count _ (events (createProgram gl vs fs st)) = _ /\ _ |- _ =>
            fail
        | _ => pose proof (createProgram_counts gl vs fs st)
        end
    end.

(** Count a kind of call through a log of [main]. *)
Ltac tally :=
  unfold count;
  cbn [events value final pending];
  rewrite ?filter_app, ?length_app;
  repeat match goal with
    | |- context [filter ?X (events (createShader ?gl ?t ?src ?s))] =>
        rewrite (filter_none X (events (createShader gl t src s)))
          by (apply createShader_calls; by_command)
    | |- context [filter ?X (events (createProgram ?gl ?vs ?fs ?s))] =>
        rewrite (filter_none X (events (createProgram gl vs fs s)))
          by (apply createProgram_calls; by_command)
    end;
  cbn [filter List.length app Nat.add
       is_error is_shader_work is_program_work is_create_program
       is_buffer_work is_upload is_draw is_clear is_schedule is_use_program
       buffer_alloc_failed handle_alloc_failed compile_status_failed
       link_status_failed is_console is_create_shader is_delete_shader
       is_delete_program is_create_buffer is_bind is_viewport
       is_attribute_work attrib_missing].

(** X7.  [main] always ends on a console line.  Either it is
    [console.log('done')]: then no error was written and exactly one
    callback was registered; or it is a [console.error] with one of the four
    stop messages: then [requestAnimationFrame] was never called and no
    callback is left. *)
Theorem main_ends_with_done_or_stop (s : State) :
  exists before last,
    events (main s) = (before ++ [last])%list
    /\ ((last = Ev (ConsoleLog "done") tt
         /\ existsb is_error (events (main s)) = false
         /\ count is_schedule (events (main s)) = 1%nat
         /\ exists cb, pending (final (main s)) = (pending s ++ [cb])%list)
        \/ (exists message,
               last = Ev (ConsoleError message) tt
               /\ In message stop_messages
               /\ existsb is_schedule (events (main s)) = false
               /\ pending (final (main s)) = pending s)).
Proof.
  pattern (main s). apply main_outcome.
  - intros _ h'. eexists [_], _. split; [reflexivity|]. right.
    exists msg_no_canvas. cbn; auto 6.
  - intros _ canvas h'. eexists [_; _], _. split; [reflexivity|]. right.
    exists msg_no_webgl. cbn; auto 6.
  - intros canvas gl s1 Hctx. cbv zeta. intros Hfail h'.
    eexists. eexists. split; [rewrite !app_assoc; reflexivity|]. right.
    exists msg_shaders_stop. repeat split; [cbn; auto 6 | scan].
  - intros canvas gl s1 vs fs Hctx. cbv zeta. intros Hv Hf Hp h'.
    eexists. eexists. split; [rewrite !app_assoc; reflexivity|]. right.
    exists msg_program_stop. repeat split; [cbn; auto 6 | scan].
  - intros canvas gl s1 vs fs program Hctx. cbv zeta.
    intros Hv Hf Hp posBuffer colBuffer dpr resized w h w' h' id host'.
    spell_out. cbn [events final pending value app].
    match goal with
    | |- exists before last, ?L = _ /\ _ =>
        exists (removelast L), (List.last L (Ev (ConsoleLog "done") tt))
    end.
    split; [apply app_removelast_last; discriminate|]. left.
    repeat split; eauto.
Qed.

(** X8.  [main] deletes exactly what failed: it calls [deleteShader] as
    many times as a compile status came back falsy and [deleteProgram] as
    many times as a link status did, in every run.  It never creates more
    than two shaders or one program. *)
Theorem main_deletes_exactly_the_failures (s : State) :
  count is_delete_shader (events (main s))
  = count compile_status_failed (events (main s))
  /\ count is_delete_program (events (main s))
     = count link_status_failed (events (main s))
  /\ (count is_create_shader (events (main s)) <= 2)%nat
  /\ (count is_create_program (events (main s)) <= 1)%nat.
Proof.
  pattern (main s). apply main_outcome; intros; inline_lets;
    recall_counts; tally; unfold count in *; lia.
Qed.

(** The premise says that no error was written, in a run that wrote one. *)
Ltac absurd_quiet :=
  match goal with
  | H : existsb is_error _ = false |- _ =>
      exfalso; revert H; scan; rewrite ?orb_true_r; discriminate
  end.

(** X9.  A start-up that writes no error makes exactly these 28 calls, in
    this order: canvas and context, the vertex stage, the fragment stage,
    the link of the two handles just compiled, [useProgram] on the program
    just linked, two [createBuffer], the resize with the pixel ratio just
    read, the size line, the viewport at the origin with the size read
    after the resize, one [requestAnimationFrame], and ['done'].  No shader
    is deleted: both remain live after linking. *)
Theorem successful_startup_sequence (s : State) :
  existsb is_error (events (main s)) = false ->
  exists canvas gl vertexShader fragmentShader program posBuffer colBuffer
         dpr resized w h w' h' id,
    events (main s) =
      [Ev (QuerySelector "#canvas") (Some canvas);
       Ev (GetContext canvas "webgl") (Some gl);
       Ev (GlCreateShader gl VERTEX_SHADER) (Some vertexShader);
       Ev (GlShaderSource gl vertexShader vertProgram) tt;
       Ev (GlCompileShader gl vertexShader) tt;
       Ev (GlGetShaderParameter gl vertexShader GLenum.COMPILE_STATUS)
          (Some true);
       Ev (GlCreateShader gl FRAGMENT_SHADER) (Some fragmentShader);
       Ev (GlShaderSource gl fragmentShader fragProgram) tt;
       Ev (GlCompileShader gl fragmentShader) tt;
       Ev (GlGetShaderParameter gl fragmentShader GLenum.COMPILE_STATUS)
          (Some true);
       Ev (GlCreateProgram gl) (Some program);
       Ev (GlAttachShader gl program vertexShader) tt;
       Ev (GlAttachShader gl program fragmentShader) tt;
       Ev (GlLinkProgram gl program) tt;
       Ev (GlGetProgramParameter gl program GLenum.LINK_STATUS) (Some true);
       Ev (GlUseProgram gl program) tt;
       Ev (GlCreateBuffer gl) posBuffer;
       Ev (GlCreateBuffer gl) colBuffer;
       Ev DevicePixelRatio dpr;
       Ev (ResizeCanvasToDisplaySize canvas dpr) resized;
       Ev (CanvasWidth canvas) w;
       Ev (CanvasHeight canvas) h;
       Ev (ConsoleLog (msg_resized resized w h)) tt;
       Ev (CanvasWidth canvas) w';
       Ev (CanvasHeight canvas) h';
       Ev (GlViewport gl 0 0 w' h') tt;
       Ev (RequestAnimationFrame
             (RenderClosure gl program posBuffer colBuffer)) id;
       Ev (ConsoleLog "done") tt]
    /\ live_shaders (events (main s)) = [vertexShader; fragmentShader]
    /\ live_programs (events (main s)) = [program]
    /\ pending (final (main s))
       = (pending s ++ [RenderClosure gl program posBuffer colBuffer])%list.
Proof.
  pattern (main s). apply main_outcome; intros; inline_lets;
    try absurd_quiet.
  spell_out. cbn [events final pending app].
  do 14 eexists. repeat split; reflexivity.
Qed.

(** ** The two failure paths of [main] the claims leave out *)

Lemma createShader_failed_log gl type source (s : State) :
  existsb compile_status_failed (events (createShader gl type source s))
  = true ->
  exists shader status log,
    events (createShader gl type source s) =
      [Ev (GlCreateShader gl type) (Some shader);
       Ev (GlShaderSource gl shader source) tt;
       Ev (GlCompileShader gl shader) tt;
       Ev (GlGetShaderParameter gl shader GLenum.COMPILE_STATUS) status;
       Ev (GlGetShaderInfoLog gl shader) log;
       Ev (ConsoleError (msg_shader log)) tt;
       Ev (GlDeleteShader gl shader) tt].
Proof.
  pattern (createShader gl type source s).
  apply createShader_outcome; cbn [events]; intros; try discriminate.
  eauto.
Qed.

Lemma createProgram_failed_log gl vs fs (s : State) :
  existsb link_status_failed (events (createProgram gl vs fs s)) = true ->
  value (createProgram gl vs fs s) = None
  /\ exists program status log,
      events (createProgram gl vs fs s) =
        [Ev (GlCreateProgram gl) (Some program);
         Ev (GlAttachShader gl program vs) tt;
         Ev (GlAttachShader gl program fs) tt;
         Ev (GlLinkProgram gl program) tt;
         Ev (GlGetProgramParameter gl program GLenum.LINK_STATUS) status;
         Ev (GlGetProgramInfoLog gl program) log;
         Ev (ConsoleError (msg_program log)) tt;
         Ev (GlDeleteProgram gl program) tt].
Proof.
  pattern (createProgram gl vs fs s).
  apply createProgram_outcome; cbn [events value]; intros; try discriminate.
  eauto.
Qed.

Lemma main_when_link_fails (s s1 : State) canvas gl vs fs :
  context_of s = Some (canvas, gl, s1) ->
  let v := createShader gl VERTEX_SHADER vertProgram s1 in
  let f := createShader gl FRAGMENT_SHADER fragProgram (final v) in
  let p := createProgram gl vs fs (final f) in
  value v = Some vs ->
  value f = Some fs ->
  value p = None ->
  events (main s) =
    ([Ev (QuerySelector "#canvas") (Some canvas);
      Ev (GetContext canvas "webgl") (Some gl)]
     ++ events v ++ events f ++ events p
     ++ [Ev (ConsoleError msg_program_stop) tt])%list
  /\ pending (final (main s)) = pending s.
Proof.
  intros Hctx v f p Hv Hf Hp. pattern (main s).
  apply main_outcome; intros; try same_context; inline_lets.
  - exfalso. match goal with H : _ \/ _ |- _ => destruct H end; congruence.
  - split; [|reflexivity].
    repeat match goal with
      | H : ?x = Some ?a, H' : ?x = Some ?b |- _ =>
          rewrite H in H'; injection H' as <-
      end.
    reflexivity.
  - exfalso.
    repeat match goal with
      | H : ?x = Some ?a, H' : ?x = Some ?b |- _ =>
          rewrite H in H'; injection H' as <-
      end.
    congruence.
Qed.

(** X10.  When both shaders compiled and the link status comes back falsy,
    [main] stops at "Unable to create WebGLProgram. Stopping."  after the
    linker's own message: it never calls [useProgram], allocates no buffer
    and registers no callback.  The program was deleted, the two compiled
    shaders were not. *)
Theorem link_failure_halts_startup (s s1 : State) canvas gl
        vertexShader fragmentShader :
  context_of s = Some (canvas, gl, s1) ->
  let v := createShader gl VERTEX_SHADER vertProgram s1 in
  let f := createShader gl FRAGMENT_SHADER fragProgram (final v) in
  let p := createProgram gl vertexShader fragmentShader (final f) in
  value v = Some vertexShader ->
  value f = Some fragmentShader ->
  existsb link_status_failed (events p) = true ->
  (exists before,
      events (main s)
      = (before ++ [Ev (ConsoleError msg_program_stop) tt])%list)
  /\ count is_error (events (main s)) = 2%nat
  /\ existsb is_use_program (events (main s)) = false
  /\ existsb is_buffer_work (events (main s)) = false
  /\ existsb is_schedule (events (main s)) = false
  /\ live_programs (events (main s)) = []
  /\ live_shaders (events (main s)) = [vertexShader; fragmentShader]
  /\ pending (final (main s)) = pending s.
Proof.
  intros Hctx v f p Hv Hf Hlink.
  destruct (createProgram_failed_log _ _ _ _ Hlink)
    as (Hp & program & status & log & Hplog).
  destruct (main_when_link_fails s s1 canvas gl _ _ Hctx Hv Hf Hp)
    as [Hlog Hpending].
  rewrite Hlog, Hpending. subst v f p. rewrite Hplog. spell_out.
  split.
  { eexists. rewrite !app_assoc. reflexivity. }
  repeat split.
  destruct program as [n]. cbn. now rewrite Nat.eqb_refl.
Qed.

(** X11.  When the vertex shader compiled and the compile status of the
    fragment shader comes back falsy, [main] stops at
    "Unable to compile shaders. Stopping." without calling
    [createProgram].  The only shader deleted is the one allocated for the
    fragment stage: the vertex shader that compiled is never released. *)
Theorem fragment_failure_halts_startup (s s1 : State) canvas gl vertexShader :
  context_of s = Some (canvas, gl, s1) ->
  let v := createShader gl VERTEX_SHADER vertProgram s1 in
  let f := createShader gl FRAGMENT_SHADER fragProgram (final v) in
  value v = Some vertexShader ->
  existsb compile_status_failed (events f) = true ->
  (exists before,
      events (main s)
      = (before ++ [Ev (ConsoleError msg_shaders_stop) tt])%list)
  /\ (exists shader rest,
         events f = Ev (GlCreateShader gl FRAGMENT_SHADER) (Some shader) :: rest
         /\ filter is_delete_shader (events (main s))
            = [Ev (GlDeleteShader gl shader) tt])
  /\ count is_error (events (main s)) = 2%nat
  /\ existsb is_program_work (events (main s)) = false
  /\ existsb is_buffer_work (events (main s)) = false
  /\ existsb is_schedule (events (main s)) = false
  /\ pending (final (main s)) = pending s.
Proof.
  intros Hctx v f Hv Hfail.
  destruct (createShader_failed_log _ _ _ _ Hfail)
    as (shader & status & log & Hflog).
  apply createShader_null_on_failure in Hfail.
  destruct (main_when_shaders_fail s s1 canvas gl Hctx (or_intror Hfail))
    as [Hlog Hpending].
  rewrite Hlog, Hpending. subst v f. rewrite Hflog. spell_out.
  split.
  { eexists. rewrite !app_assoc. reflexivity. }
  split.
  { eexists. eexists. split; reflexivity. }
  repeat split.
Qed.

(** ** The render function and the frames *)

(** X12.  The render function never looks at what [getAttribLocation]
    returned.  When an attribute is reported missing (a negative location),
    that location is still passed to [enableVertexAttribArray] and
    [vertexAttribPointer], both uploads and the draw call are still made,
    and nothing is written to the console. *)
Theorem render_ignores_missing_attribute gl program posBuffer colBuffer
        (s : State) :
  existsb attrib_missing (events (render gl program posBuffer colBuffer s))
  = true ->
  exists attrPosPtr attrColPtr,
    (attrPosPtr < 0 \/ attrColPtr < 0)
    /\ filter is_attribute_work
              (events (render gl program posBuffer colBuffer s))
       = [Ev (GlGetAttribLocation gl program "a_Pos") attrPosPtr;
          Ev (GlEnableVertexAttribArray gl attrPosPtr) tt;
          Ev (GlVertexAttribPointer gl attrPosPtr 2 GLenum.FLOAT false 0 0) tt;
          Ev (GlGetAttribLocation gl program "a_Col") attrColPtr;
          Ev (GlEnableVertexAttribArray gl attrColPtr) tt;
          Ev (GlVertexAttribPointer gl attrColPtr 4 GLenum.UNSIGNED_BYTE true
                                    0 0) tt]
    /\ count is_upload (events (render gl program posBuffer colBuffer s))
       = 2%nat
    /\ count is_draw (events (render gl program posBuffer colBuffer s))
       = 1%nat
    /\ existsb is_console (events (render gl program posBuffer colBuffer s))
       = false.
Proof.
  pattern (render gl program posBuffer colBuffer s).
  apply render_outcome; intros attrPosPtr attrColPtr h'.
  cbn [events existsb attrib_missing orb]. intros Hmissing.
  exists attrPosPtr, attrColPtr. split.
  - destruct (Z.ltb_spec attrPosPtr 0) as [Hp|_]; [now left|].
    destruct (Z.ltb_spec attrColPtr 0) as [Hc|_]; [now right|].
    discriminate Hmissing.
  - repeat split.
Qed.

(** X13.  An invocation of the render function only clears, sets up the two
    attributes with their buffers, and draws: it writes nothing to the
    console, allocates and deletes nothing, never calls [useProgram] or
    [viewport] (it relies on what [main] left current), and leaves the list
    of pending callbacks as it found it.  It makes 13 calls, whatever the
    host answers. *)
Theorem render_only_draws gl program posBuffer colBuffer (s : State) :
  let log := events (render gl program posBuffer colBuffer s) in
  List.length log = 13%nat
  /\ existsb is_console log = false
  /\ existsb is_shader_work log = false
  /\ existsb is_program_work log = false
  /\ existsb is_create_buffer log = false
  /\ existsb is_viewport log = false
  /\ existsb is_schedule log = false
  /\ count is_bind log = 2%nat
  /\ pending (final (render gl program posBuffer colBuffer s)) = pending s.
Proof.
  cbv zeta. pattern (render gl program posBuffer colBuffer s).
  apply render_outcome; intros. repeat split.
Qed.

Lemma createProgram_leaves_current gl vs fs (s : State) :
  filter is_use_program (events (createProgram gl vs fs s)) = [].
Proof.
  pattern (createProgram gl vs fs s).
  apply createProgram_outcome; intros; reflexivity.
Qed.

(** X14.  [main] itself never draws: in no run does it clear, bind or fill
    a buffer, query or set up an attribute, or call [drawArrays].  Its only
    calls that change rendering state are at most one [useProgram] and one
    [viewport]. *)
Theorem main_never_draws (s : State) :
  existsb is_draw (events (main s)) = false
  /\ existsb is_clear (events (main s)) = false
  /\ existsb is_bind (events (main s)) = false
  /\ existsb is_upload (events (main s)) = false
  /\ existsb is_attribute_work (events (main s)) = false
  /\ (count is_use_program (events (main s)) <= 1)%nat
  /\ count is_viewport (events (main s))
     = count is_use_program (events (main s)).
Proof.
  pattern (main s). apply main_outcome; intros; inline_lets;
    repeat split;
    try (scan; cbn [orb is_bind is_attribute_work]; reflexivity);
    tally; rewrite ?createProgram_leaves_current; cbn [List.length]; lia.
Qed.

(** Under every host, a page load followed by [n] display refreshes
    makes no draw call if [main] wrote an error, and otherwise one draw call
    as soon as [n] is at least 1, never more; after the first refresh no
    callback is pending. *)
Theorem draws_after_page_load (h : HostState) (n : nat) :
  count is_draw (events (refreshes n (final (page_load h))))
  = (if existsb is_error (events (page_load h)) then 0 else Nat.min n 1)%nat
  /\ pending (final (refreshes (S n) (final (page_load h)))) = [].
Proof.
  split; [|apply refreshes_after_first].
  unfold page_load. pattern (main (mkState h [])).
  apply main_outcome; intros; inline_lets; cbn [events final pending].
  1-4: scan; rewrite ?orb_true_r;
       match goal with
       | |- context [refreshes ?k ?st] =>
           destruct (refreshes_idle k st eq_refl) as [-> _]
       end; reflexivity.
  spell_out. cbn [existsb is_error orb app].
  destruct n as [|n]; [reflexivity|].
  match goal with
  | |- context [refreshes (S ?k) ?st] =>
      destruct (refreshes_after_first k st) as [-> _]
  end.
  unfold refresh. cbn [pending host invoke_all invoke].
  rewrite run_bind. cbn [events].
  match goal with
  | |- context [render ?a ?b ?c ?d ?st] =>
      pattern (render a b c d st); apply render_outcome; intros
  end.
  destruct n; reflexivity.
Qed.

(** X15.  [createShader] never inspects the source text: whenever the host
    hands out a handle, the text goes to [shaderSource] as it is (the empty
    string included), the shader is compiled and its status read.  On a
    truthy status nothing more is called and the handle just allocated is
    returned; otherwise the remaining calls are exactly [getShaderInfoLog],
    [console.error] with the message built from that log, and
    [deleteShader] on the same handle, and [null] is returned. *)
Theorem createShader_passes_source_unchecked gl type source (s : State) :
  existsb handle_alloc_failed (events (createShader gl type source s)) = false ->
  exists shader status rest,
    events (createShader gl type source s)
    = Ev (GlCreateShader gl type) (Some shader)
      :: Ev (GlShaderSource gl shader source) tt
      :: Ev (GlCompileShader gl shader) tt
      :: Ev (GlGetShaderParameter gl shader GLenum.COMPILE_STATUS) status
      :: rest
    /\ List.length rest = (if truthy status then 0 else 3)%nat
    /\ is_none (value (createShader gl type source s)) = negb (truthy status)
    /\ if truthy status
       then rest = []
            /\ value (createShader gl type source s) = Some shader
       else value (createShader gl type source s) = None
            /\ exists log,
                 rest = [Ev (GlGetShaderInfoLog gl shader) log;
                         Ev (ConsoleError (msg_shader log)) tt;
                         Ev (GlDeleteShader gl shader) tt]
                 /\ msg_shader log
                    = ("Could not compile WebGL shader."
                       ++ String "010" (String "010" "      "))
                      ++ match log with Some text => text | None => "null" end
                      ++ String "010" "      ".
Proof.
  pattern (createShader gl type source s).
  apply createShader_outcome; cbn [events value]; intros.
  - discriminate.
  - do 3 eexists. split; [reflexivity|].
    match goal with H : truthy _ = false |- _ => rewrite H end.
    repeat split. eexists. split; [reflexivity|].
    destruct log; reflexivity.
  - do 3 eexists. split; [reflexivity|]. repeat split.
Qed.
End Properties.

(** * Runs under the scripted hosts *)

(** C1.  Under a host where every start-up step succeeds, [main] registers
    the render function once.  Its invocation at the first refresh makes the
    draw call and registers nothing, so no callback is pending afterwards:
    however many refreshes follow, the log holds one draw call and the
    pending list stays empty. *)
Theorem render_callback_runs_once :
  snd (session script_ok 0)
  = [RenderClosure (Context 0) (Program 1) (Some (Buffer 16)) (Some (Buffer 17))]
  /\ existsb is_schedule (events (@refresh sample_imports ok_host
                                           (final (ok_page)))) = false
  /\ snd (session script_ok 1) = []
  /\ forall n,
       snd (session script_ok (S n)) = []
       /\ fst (session script_ok (S n)) = fst (session script_ok 1)
       /\ List.length (filter is_draw (fst (session script_ok (S n)))) = 1%nat.
Proof.
  split; [reflexivity|]. split; [reflexivity|]. split; [reflexivity|].
  intros n. unfold session.
  destruct (@refreshes_after_first sample_imports ok_host n (final ok_page))
    as [Hlog Hpending].
  destruct (@refreshes_after_first sample_imports ok_host 0 (final ok_page))
    as [Hlog1 _].
  fold ok_host. fold ok_page. cbn [fst snd].
  rewrite Hlog, Hlog1, Hpending.
  split; [reflexivity|]. split; [reflexivity|].
  vm_compute. reflexivity.
Qed.

(** ** Instances of the conditional statements *)

Lemma createShader_compile_failure_witness :
  existsb compile_status_failed
          (events (@createShader bad_vertex_host (Context 0) VERTEX_SHADER
                                 "void main(" (fresh_page script_bad_vertex)))
  = true
  /\ value (@createShader bad_vertex_host (Context 0) VERTEX_SHADER
                          "void main(" (fresh_page script_bad_vertex))
     = None.
Proof.
  split; [reflexivity|].
  destruct (@createShader_compile_failure bad_vertex_host (Context 0)
              VERTEX_SHADER "void main(" (fresh_page script_bad_vertex)
              eq_refl)
    as (shader & status & log & _ & _ & _ & _ & Hnull & _).
  exact Hnull.
Defined.

Lemma createProgram_link_failure_witness :
  existsb link_status_failed
          (events (@createProgram bad_link_host (Context 0) (Shader 1)
                                  (Shader 2) (fresh_page script_bad_link)))
  = true
  /\ value (@createProgram bad_link_host (Context 0) (Shader 1) (Shader 2)
                           (fresh_page script_bad_link))
     = None.
Proof.
  split; [reflexivity|].
  destruct (@createProgram_link_failure bad_link_host (Context 0) (Shader 1)
              (Shader 2) (fresh_page script_bad_link) eq_refl)
    as (program & status & log & _ & _ & _ & _ & Hnull & _).
  exact Hnull.
Defined.

Lemma vertex_failure_halts_startup_witness :
  @context_of bad_vertex_host (fresh_page script_bad_vertex)
  = Some (Canvas 0, Context 0, @mkState bad_vertex_host 2%nat [])
  /\ existsb is_create_program
             (events (@main sample_imports bad_vertex_host
                            (fresh_page script_bad_vertex))) = false.
Proof.
  split; [reflexivity|].
  apply (@vertex_failure_halts_startup sample_imports bad_vertex_host
           (fresh_page script_bad_vertex) (@mkState bad_vertex_host 2%nat [])
           (Canvas 0) (Context 0) eq_refl eq_refl).
Defined.


Lemma both_stages_compiled_before_check_witness :
  @context_of bad_vertex_host (fresh_page script_bad_vertex)
  = Some (Canvas 0, Context 0, @mkState bad_vertex_host 2%nat [])
  /\ exists answer rest,
       events (@createShader bad_vertex_host (Context 0) FRAGMENT_SHADER
                 (@fragProgram sample_imports)
                 (final (@createShader bad_vertex_host (Context 0)
                           VERTEX_SHADER (@vertProgram sample_imports)
                           (@mkState bad_vertex_host 2%nat []))))
       = Ev (GlCreateShader (Context 0) FRAGMENT_SHADER) answer :: rest.
Proof.
  split; [reflexivity|].
  apply (@both_stages_compiled_before_check sample_imports bad_vertex_host
           (fresh_page script_bad_vertex) (@mkState bad_vertex_host 2%nat [])
           (Canvas 0) (Context 0) eq_refl).
Defined.

Lemma buffer_allocation_is_unchecked_witness :
  existsb buffer_alloc_failed
          (events (@main sample_imports (scripted_host script_no_buffers)
                         (fresh_page script_no_buffers))) = true
  /\ forall s' : @State (scripted_host script_no_buffers),
       existsb handle_alloc_failed
               (events (@main sample_imports (scripted_host script_no_buffers)
                              s')) = true ->
       existsb is_error
               (events (@main sample_imports (scripted_host script_no_buffers)
                              s')) = true
       /\ existsb is_schedule
                  (events (@main sample_imports
                                 (scripted_host script_no_buffers) s')) = false
       /\ pending (final (@main sample_imports
                                (scripted_host script_no_buffers) s'))
          = pending s'.
Proof.
  split; [reflexivity|].
  apply (@buffer_allocation_is_unchecked sample_imports
           (scripted_host script_no_buffers) (fresh_page script_no_buffers)
           eq_refl).
Defined.

(** The same run, evaluated: with both buffers refused, [main] logs no
    error and the first refresh binds [null] twice. *)
Example null_buffers_reach_bindBuffer :
  existsb is_error (fst (session script_no_buffers 1)) = false
  /\ filter is_buffer_work (fst (session script_no_buffers 1))
     = [Ev (GlCreateBuffer (Context 0)) None;
        Ev (GlCreateBuffer (Context 0)) None;
        Ev (GlBindBuffer (Context 0) GLenum.ARRAY_BUFFER None) tt;
        Ev (GlBufferData (Context 0) GLenum.ARRAY_BUFFER
                         (Float32Array (@pos sample_imports))
                         GLenum.STATIC_DRAW) tt;
        Ev (GlBindBuffer (Context 0) GLenum.ARRAY_BUFFER None) tt;
        Ev (GlBufferData (Context 0) GLenum.ARRAY_BUFFER colors
                         GLenum.STATIC_DRAW) tt].
Proof. split; reflexivity. Qed.

(** ** Instances of the further conditional statements *)

Lemma createShader_allocation_refused_witness :
  existsb handle_alloc_failed
          (events (@createShader refusing_host (Context 0) VERTEX_SHADER
                                 "void main() {}" (@mkState refusing_host O [])))
  = true
  /\ events (@createShader refusing_host (Context 0) VERTEX_SHADER
                           "void main() {}" (@mkState refusing_host O []))
     = [Ev (GlCreateShader (Context 0) VERTEX_SHADER) None].
Proof.
  split; [reflexivity|].
  destruct (@createShader_allocation_refused refusing_host (Context 0)
              VERTEX_SHADER "void main() {}" (@mkState refusing_host O [])
              eq_refl)
    as (Hlog & _ & _).
  exact Hlog.
Defined.

Lemma createShader_success_keeps_handle_witness :
  value (@createShader ok_host (Context 0) FRAGMENT_SHADER "void main() {}"
                       (fresh_page script_ok))
  = Some (Shader 2)
  /\ live_shaders
       (events (@createShader ok_host (Context 0) FRAGMENT_SHADER
                              "void main() {}" (fresh_page script_ok)))
     = [Shader 2].
Proof.
  split; [reflexivity|].
  destruct (@createShader_success_keeps_handle ok_host (Context 0)
              FRAGMENT_SHADER "void main() {}" (fresh_page script_ok)
              (Shader 2) eq_refl)
    as (_ & Hlive & _).
  exact Hlive.
Defined.

Lemma createShader_passes_source_unchecked_witness :
  existsb handle_alloc_failed
          (events (@createShader ok_host (Context 0) VERTEX_SHADER ""
                                 (fresh_page script_ok)))
  = false
  /\ exists shader status rest,
       events (@createShader ok_host (Context 0) VERTEX_SHADER ""
                             (fresh_page script_ok))
       = Ev (GlCreateShader (Context 0) VERTEX_SHADER) (Some shader)
         :: Ev (GlShaderSource (Context 0) shader "") tt
         :: Ev (GlCompileShader (Context 0) shader) tt
         :: Ev (GlGetShaderParameter (Context 0) shader GLenum.COMPILE_STATUS)
               status
         :: rest.
Proof.
  split; [reflexivity|].
  destruct (@createShader_passes_source_unchecked ok_host (Context 0)
              VERTEX_SHADER "" (fresh_page script_ok) eq_refl)
    as (shader & status & rest & Hlog & _).
  exists shader, status, rest. exact Hlog.
Defined.

Lemma createProgram_success_attaches_in_order_witness :
  value (@createProgram ok_host (Context 0) (Shader 1) (Shader 2)
                        (fresh_page script_ok))
  = Some (Program 1)
  /\ live_programs
       (events (@createProgram ok_host (Context 0) (Shader 1) (Shader 2)
                               (fresh_page script_ok)))
     = [Program 1].
Proof.
  split; [reflexivity|].
  destruct (@createProgram_success_attaches_in_order ok_host (Context 0)
              (Shader 1) (Shader 2) (fresh_page script_ok) (Program 1)
              eq_refl)
    as (_ & Hlive & _).
  exact Hlive.
Defined.

Lemma createProgram_allocation_refused_witness :
  existsb handle_alloc_failed
          (events (@createProgram refusing_host (Context 0) (Shader 1)
                                  (Shader 2) (@mkState refusing_host O [])))
  = true
  /\ events (@createProgram refusing_host (Context 0) (Shader 1) (Shader 2)
                            (@mkState refusing_host O []))
     = [Ev (GlCreateProgram (Context 0)) None].
Proof.
  split; [reflexivity|].
  destruct (@createProgram_allocation_refused refusing_host (Context 0)
              (Shader 1) (Shader 2) (@mkState refusing_host O []) eq_refl)
    as (Hlog & _ & _).
  exact Hlog.
Defined.

Lemma successful_startup_sequence_witness :
  existsb is_error
          (events (@main sample_imports ok_host (fresh_page script_ok)))
  = false
  /\ exists cb,
       pending (final (@main sample_imports ok_host (fresh_page script_ok)))
       = [cb].
Proof.
  split; [reflexivity|].
  destruct (@successful_startup_sequence sample_imports ok_host
              (fresh_page script_ok) eq_refl)
    as (canvas & gl & vs & fs & program & posBuffer & colBuffer & dpr
        & resized & w & h & w' & h' & id & _ & _ & _ & Hpending).
  eexists. exact Hpending.
Defined.

Lemma link_failure_halts_startup_witness :
  (@context_of bad_link_host (fresh_page script_bad_link)
   = Some (Canvas 0, Context 0, @mkState bad_link_host 2%nat [])
   /\ value (@createShader bad_link_host (Context 0) VERTEX_SHADER
               (@vertProgram sample_imports) (@mkState bad_link_host 2%nat []))
      = Some (Shader 1))
  /\ existsb is_use_program
             (events (@main sample_imports bad_link_host
                            (fresh_page script_bad_link))) = false.
Proof.
  split; [split; reflexivity|].
  destruct (@link_failure_halts_startup sample_imports bad_link_host
              (fresh_page script_bad_link) (@mkState bad_link_host 2%nat [])
              (Canvas 0) (Context 0) (Shader 1) (Shader 2)
              eq_refl eq_refl eq_refl eq_refl)
    as (_ & _ & Huse & _).
  exact Huse.
Defined.

Lemma fragment_failure_halts_startup_witness :
  (@context_of bad_fragment_host (fresh_page script_bad_fragment)
   = Some (Canvas 0, Context 0, @mkState bad_fragment_host 2%nat [])
   /\ value (@createShader bad_fragment_host (Context 0) VERTEX_SHADER
               (@vertProgram sample_imports)
               (@mkState bad_fragment_host 2%nat []))
      = Some (Shader 1))
  /\ count is_error
           (events (@main sample_imports bad_fragment_host
                          (fresh_page script_bad_fragment)))
     = 2%nat.
Proof.
  split; [split; reflexivity|].
  destruct (@fragment_failure_halts_startup sample_imports bad_fragment_host
              (fresh_page script_bad_fragment)
              (@mkState bad_fragment_host 2%nat [])
              (Canvas 0) (Context 0) (Shader 1) eq_refl eq_refl eq_refl)
    as (_ & _ & Hcount & _).
  exact Hcount.
Defined.

Lemma render_ignores_missing_attribute_witness :
  existsb attrib_missing
          (events (@render sample_imports no_attribs_host (Context 0)
                           (Program 1) (Some (Buffer 1)) (Some (Buffer 2))
                           (@mkState no_attribs_host O [])))
  = true
  /\ count is_draw
           (events (@render sample_imports no_attribs_host (Context 0)
                            (Program 1) (Some (Buffer 1)) (Some (Buffer 2))
                            (@mkState no_attribs_host O [])))
     = 1%nat.
Proof.
  split; [reflexivity|].
  destruct (@render_ignores_missing_attribute sample_imports no_attribs_host
              (Context 0) (Program 1) (Some (Buffer 1)) (Some (Buffer 2))
              (@mkState no_attribs_host O []) eq_refl)
    as (attrPosPtr & attrColPtr & _ & _ & _ & Hdraw & _).
  exact Hdraw.
Defined.
